(** * CNNPipeline: a shallow embedding of projects/land_cover/cnn/model/CNNPipeline.py

  The development follows the layout of the Python module: helpers that
  stand for the Python and NumPy primitives the module calls, then one
  Rocq module per class ([CloudDataset], [Preprocess], [Train],
  [Predict]).  Arrays are nested lists, integers are [Z] with the int16
  wrap-around written out, true division is exact in [Q], paths are
  strings, the file system is a finite map from paths to files, and
  logging / raster IO are recorded in a trace of events. *)

From Stdlib Require Import ZArith QArith List String Ascii Bool Lia.
From stdpp Require Import gmap strings list.

Open Scope Z_scope.

(* ===================================================================== *)
(** ** Python primitives *)
(* ===================================================================== *)

Module Py.

(** [s[:-n]] for a positive [n]: every character but the last [n]
    (the empty string when the string is not longer than [n]). *)
Fixpoint take_str (k : nat) (s : string) : string :=
  match k, s with
  | O, _ => EmptyString
  | S _, EmptyString => EmptyString
  | S k', String c r => String c (take_str k' r)
  end.

Definition drop_last (n : nat) (s : string) : string :=
  take_str (String.length s - n) s.

(** [s.split('/')]: never empty, one more piece than there are slashes. *)
Fixpoint split_slash (s : string) : list string :=
  match s with
  | EmptyString => [EmptyString]
  | String c r =>
      if Ascii.eqb c "/"%char then EmptyString :: split_slash r
      else match split_slash r with
           | [] => [String c EmptyString]
           | h :: t => String c h :: t
           end
  end.

(** [l[-1]] on a list of strings ([d] when the list is empty). *)
Definition last_item (l : list string) (d : string) : string := List.last l d.

Definition startswith_slash (s : string) : bool :=
  match s with
  | String c _ => Ascii.eqb c "/"%char
  | EmptyString => false
  end.

Fixpoint endswith_slash (s : string) : bool :=
  match s with
  | EmptyString => false
  | String c EmptyString => Ascii.eqb c "/"%char
  | String _ r => endswith_slash r
  end.

(** [os.path.join(a, b)] of posixpath, for two components. *)
Definition path_join (a b : string) : string :=
  if startswith_slash b then b
  else if (String.eqb a EmptyString || endswith_slash a)%bool then (a ++ b)%string
  else (a ++ "/" ++ b)%string.

(** [max(l, key=key)]: the first element whose key is not exceeded;
    [None] stands for the ValueError on an empty sequence. *)
Fixpoint max_from {A} (key : A -> Z) (best : A) (l : list A) : A :=
  match l with
  | [] => best
  | x :: r => if key best <? key x then max_from key x r else max_from key best r
  end.

Definition max_key {A} (key : A -> Z) (l : list A) : option A :=
  match l with
  | [] => None
  | x :: r => Some (max_from key x r)
  end.

(** A bound [i] of a slice over a sequence of [len] items: a negative
    bound counts from the end, and every bound is clamped to [0, len]. *)
Definition slice_bound (len : nat) (i : Z) : nat :=
  if i <? 0 then Z.to_nat (Z.max 0 (i + Z.of_nat len))
  else Z.to_nat (Z.min i (Z.of_nat len)).

(** [l[lo:hi]] *)
Definition slice {A} (lo hi : Z) (l : list A) : list A :=
  let a := slice_bound (length l) lo in
  let b := slice_bound (length l) hi in
  take (b - a) (drop a l).

End Py.

(* ===================================================================== *)
(** ** NumPy / torch primitives on nested lists *)
(* ===================================================================== *)

Module Np.

(** A 2-D array is a list of rows, a 3-D array a list of 2-D arrays. *)
Abbreviation arr2 A := (list (list A)) (only parsing).
Abbreviation arr3 A := (list (list (list A))) (only parsing).

Definition map2d {A B} (f : A -> B) (m : arr2 A) : arr2 B := map (map f) m.
Definition map3d {A B} (f : A -> B) (t : arr3 A) : arr3 B := map (map2d f) t.

(** Swap the two leading axes of an array with rectangular rows. *)
Fixpoint transpose {A} (m : list (list A)) : list (list A) :=
  match m with
  | [] => []
  | r :: rs =>
      match rs with
      | [] => map (fun a => [a]) r
      | _ :: _ => zip_with cons r (transpose rs)
      end
  end.

(** [np.moveaxis(a, 0, -1)]: (C,H,W) to (H,W,C). *)
Definition moveaxis_0_last {A} (t : arr3 A) : arr3 A := map transpose (transpose t).

(** [a.transpose((2, 0, 1))] and [np.moveaxis(a, -1, 0)]: (H,W,C) to (C,H,W). *)
Definition moveaxis_last_0 {A} (t : arr3 A) : arr3 A := transpose (map transpose t).

(** [astype('int16')] on an integer value: keep the low 16 bits, signed. *)
Definition int16_max : Z := 32767.
Definition astype_int16 (v : Z) : Z := (v + 32768) mod 65536 - 32768.

(** [np.clip(a, lo, hi)] = [minimum(maximum(a, lo), hi)], on integers and
    on the rationals that stand for float64 values. *)
Definition clipZ (lo hi v : Z) : Z := Z.min (Z.max v lo) hi.

Definition Qmaxb (a b : Q) : Q := if Qle_bool a b then b else a.
Definition Qminb (a b : Q) : Q := if Qle_bool a b then a else b.
Definition clipQ (lo hi v : Q) : Q := Qminb (Qmaxb v lo) hi.

(** [torch.flipud] reverses dimension 0 and [torch.fliplr] reverses
    dimension 1 of its argument, whatever the rank (at least 2). *)
Definition flipud {B} (t : list B) : list B := rev t.
Definition fliplr {B} (t : list (list B)) : list (list B) := map (@rev B) t.

(** [torch.rot90(m, k, dims=[0, 1])] on a 2-D tensor: k = 1 flips
    dims[1] then transposes, k = 2 flips both, k = 3 flips dims[0] then
    transposes; other k are taken modulo 4. *)
Definition rot90_01 {A} (k : Z) (m : arr2 A) : arr2 A :=
  match k mod 4 with
  | 1 => transpose (fliplr m)
  | 2 => flipud (fliplr m)
  | 3 => transpose (flipud m)
  | _ => m
  end.

(** [torch.rot90(t, k, dims=[1, 2])] on a 3-D tensor: the same rotation
    in every slice along dimension 0. *)
Definition rot90_12 {A} (k : Z) (t : arr3 A) : arr3 A := map (rot90_01 k) t.

End Np.

(* ===================================================================== *)
(** ** class CloudDataset *)
(* ===================================================================== *)

Module CloudDataset.

(** One element of [self.files]: the dict with keys 'image' and 'label'. *)
Record entry := { image : string; label : string }.

(** Python list objects are mutable and shared by reference, so they live
    in a store; a variable holds the location of its list.  The default
    value of [files_list] in [list_files] is built once, when the [def]
    statement runs, and stays bound to the function: location 0. *)
Definition loc := nat.

Definition files_list_default : loc := 0%nat.

Definition initial_store : gmap nat (list entry) := {[ files_list_default := [] ]}.

Definition deref (st : gmap nat (list entry)) (l : loc) : list entry :=
  default [] (st !! l).

(** [files_list.append(e)] *)
Definition append (l : loc) (e : entry) (st : gmap nat (list entry)) : gmap nat (list entry) :=
  <[ l := deref st l ++ [e] ]> st.

(** [list_files(self, dataset_dir, files_list=[])]; [listdir] stands for
    [os.listdir] and [files_list = None] for a call without the argument.
    Returns the location of the list it was given. *)
Definition list_files (listdir : string -> list string) (dataset_dir : string)
    (files_list : option loc) (st : gmap nat (list entry)) : loc * gmap nat (list entry) :=
  let fl := match files_list with Some l => l | None => files_list_default end in
  let images_dir := Py.path_join dataset_dir "images" in
  let labels_dir := Py.path_join dataset_dir "labels" in
  (fl,
   foldl (fun s i =>
            append fl {| image := Py.path_join images_dir i;
                         label := Py.path_join labels_dir i |} s)
         st (listdir images_dir)).

(** The object built by [__init__]. *)
Record t := { files : loc; pytorch : bool }.

Definition __init__ (listdir : string -> list string) (dataset_dir : string)
    (pytorch : bool) (st : gmap nat (list entry)) : t * gmap nat (list entry) :=
  let '(fl, st') := list_files listdir dataset_dir None st in
  ({| files := fl; pytorch := pytorch |}, st').

Definition __len__ (self : t) (st : gmap nat (list entry)) : nat :=
  length (deref st (files self)).

(** Integer dtypes of the tile files and [np.iinfo(dtype).max]. *)
Inductive dtype := int8 | uint8 | int16 | uint16 | int32.

Definition iinfo_max (d : dtype) : Z :=
  match d with
  | int8 => 127
  | uint8 => 255
  | int16 => 32767
  | uint16 => 65535
  | int32 => 2147483647
  end.

(** [open_image(self, idx)] with its defaults [invert=True, norm=True];
    [imread] gives the dtype and the (H,W,C) values of a tile file, [None]
    when it raises. *)
Definition open_image (imread : string -> option (dtype * Np.arr3 Z))
    (self : t) (st : gmap nat (list entry)) (idx : nat) : option (Np.arr3 Q) :=
  e ← deref st (files self) !! idx;
  '(d, img) ← imread (image e);
  Some (Np.map3d (fun v => inject_Z v / inject_Z (iinfo_max d))%Q (Np.moveaxis_last_0 img)).

(** [open_mask(self, idx, add_dims=False)] *)
Definition open_mask (imread : string -> option (Np.arr2 Z))
    (self : t) (st : gmap nat (list entry)) (idx : nat) : option (Np.arr2 Z) :=
  e ← deref st (files self) !! idx;
  imread (label e).

(** The outcomes of the five tests [np.random.random_sample() > 0.5], in
    the order in which [__getitem__] makes them. *)
Record draws := {
  flip_lr : bool; flip_ud : bool; rot_90 : bool; rot_180 : bool; rot_270 : bool }.

(** The [if augment:] block of [__getitem__]: [x] is the (C,H,W) image
    tensor, [y] the (H,W) mask tensor. *)
Definition augment_xy {A B} (d : draws) (x : Np.arr3 A) (y : Np.arr2 B) : Np.arr3 A * Np.arr2 B :=
  let '(x, y) := if flip_lr d then (Np.fliplr x, Np.fliplr y) else (x, y) in
  let '(x, y) := if flip_ud d then (Np.flipud x, Np.flipud y) else (x, y) in
  let '(x, y) := if rot_90 d then (Np.rot90_12 1 x, Np.rot90_01 1 y) else (x, y) in
  let '(x, y) := if rot_180 d then (Np.rot90_12 2 x, Np.rot90_01 2 y) else (x, y) in
  let '(x, y) := if rot_270 d then (Np.rot90_12 3 x, Np.rot90_01 3 y) else (x, y) in
  (x, y).

(** [__getitem__(self, idx, augment=True)] *)
Definition __getitem__ (imread_image : string -> option (dtype * Np.arr3 Z))
    (imread_mask : string -> option (Np.arr2 Z))
    (self : t) (st : gmap nat (list entry)) (idx : nat) (augment : bool) (d : draws)
    : option (Np.arr3 Q * Np.arr2 Z) :=
  x ← open_image imread_image self st idx;
  y ← open_mask imread_mask self st idx;
  Some (if augment then augment_xy d x y else (x, y)).

End CloudDataset.

(* ===================================================================== *)
(** ** class Config: the attributes the pipeline reads *)
(* ===================================================================== *)

(** Config.py is not part of the sources at hand; the record lists the
    attributes of [self] that CNNPipeline.py reads.  [model_filename] is
    optional because [predict] probes it and catches AttributeError. *)
Record Config := {
  tile_size : Z;
  overlap : Z;
  data_min : Z;
  data_max : Z;
  input_bands : list string;
  output_bands : list string;
  model_dir : string;
  model_filename : option string;
  data_predict : string;
  inference_output_dir : string;
  experiment_name : string;
  max_epoch : nat
}.

(* ===================================================================== *)
(** ** class Preprocess *)
(* ===================================================================== *)

Module Preprocess.

(** [modify_bands(self, img)]: the image is returned as it is when it has
    as many bands as [output_bands]; otherwise xarray drops bands, which
    [drop] stands for. *)
Definition modify_bands (drop : Np.arr3 Z -> Np.arr3 Z) (self : Config)
    (img : Np.arr3 Z) : Np.arr3 Z :=
  if Nat.eqb (length img) (length (output_bands self)) then img else drop img.

(** [modify_pixel_extremity(self, img, xmin, xmax)] = [np.clip(img, xmin, xmax)],
    on an integer array and on a float array. *)
Definition modify_pixel_extremity (xmin xmax : Z) (v : Z) : Z := Np.clipZ xmin xmax v.

Definition modify_pixel_extremity_float (xmin xmax : Z) (v : Q) : Q :=
  Np.clipQ (inject_Z xmin) (inject_Z xmax) v.

(** What [_preprocess] does to one pixel value of the image before the
    tiles are cut and saved: [astype(np.int16)], then
    [modify_pixel_extremity(img, xmin=self.data_min, xmax=self.data_max)]. *)
Definition _preprocess_pixel (self : Config) (v : Z) : Z :=
  modify_pixel_extremity (data_min self) (data_max self) (Np.astype_int16 v).

(** The value the training loop sees for that pixel: the int16 tile is
    read back by [CloudDataset.open_image], which divides by
    [np.iinfo(image.dtype).max]. *)
Definition training_pixel (self : Config) (v : Z) : Q :=
  (inject_Z (_preprocess_pixel self v)
   / inject_Z (CloudDataset.iinfo_max CloudDataset.int16))%Q.

(** [modify_roi(self, img, mask, ymin, ymax, xmin, xmax)]:
    [img[ymin:ymax, xmin:xmax], mask[ymin:ymax, xmin:xmax]], for the
    (H,W,C) image and the (H,W) mask. *)
Definition modify_roi {A B} (img : Np.arr3 A) (mask : Np.arr2 B)
    (ymin ymax xmin xmax : Z) : Np.arr3 A * Np.arr2 B :=
  (map (Py.slice xmin xmax) (Py.slice ymin ymax img),
   map (Py.slice xmin xmax) (Py.slice ymin ymax mask)).

(** [np.min(mask)]; [None] is the ValueError on an array without elements. *)
Definition np_min (mask : Np.arr2 Z) : option Z :=
  match concat mask with
  | [] => None
  | x :: r => Some (fold_left Z.min r x)
  end.

(** What [_preprocess] does to the 2-D label array before the region of
    interest is cut:
      mask = mask - 1 if np.min(mask) == 1 else mask
      mask[mask == 14] = 5 *)
Definition _preprocess_mask (mask : Np.arr2 Z) : option (Np.arr2 Z) :=
  mn ← np_min mask;
  let mask := if mn =? 1 then Np.map2d (fun v => v - 1) mask else mask in
  Some (Np.map2d (fun v => if v =? 14 then 5 else v) mask).

End Preprocess.

(* ===================================================================== *)
(** ** class Train *)
(* ===================================================================== *)

Module Train.

(** Loss values are floats that the loop only compares: a float is NaN,
    an infinity or a rational, and [<] is false as soon as one side is NaN. *)
Inductive loss := NaN | NegInf | Fin (q : Q) | PosInf.

Definition Qltb (x y : Q) : bool := negb (Qle_bool y x).

Definition lt (a b : loss) : bool :=
  match a, b with
  | NaN, _ | _, NaN => false
  | _, NegInf => false
  | NegInf, _ => true
  | PosInf, _ => false
  | Fin _, PosInf => true
  | Fin x, Fin y => Qltb x y
  end.

(** The builtin [min(a, b)]: starts from [a], takes [b] when [b < a]. *)
Definition py_min (a b : loss) : loss := if lt b a then b else a.

(** A file written by [torch.save]: the fields that make up its name
    'unet_epoch-{experiment}_{epoch}_{val_loss:.5f}.pt'. *)
Record checkpoint := { ck_experiment : string; ck_epoch : nat; ck_val_loss : loss }.

(** The state the loop reads and writes: [self.min_loss], the local
    [scheduler_counter] and [plot_losses], the checkpoints saved so far
    and the epochs at which [self.scheduler.step()] ran (latest first). *)
Record state := {
  min_loss : loss;
  scheduler_counter : Z;
  plot_losses : list (nat * loss * loss);
  saved : list checkpoint;
  lr_steps : list nat
}.

(** [_train] sets [self.min_loss = torch.tensor(float('inf'))]; [train_loop]
    starts with an empty [plot_losses] and [scheduler_counter = 0]. *)
Definition initial : state :=
  {| min_loss := PosInf; scheduler_counter := 0; plot_losses := [];
     saved := []; lr_steps := [] |}.

(** One iteration of [for epoch in range(self.max_epoch)].  The two passes
    over the data loaders are the model's business; what the rest of the
    body uses of them is [np.mean(loss_list)] and [np.mean(val_loss_list)]. *)
Definition epoch_body (self : Config) (epoch : nat) (mean_loss mean_val_loss : loss)
    (s : state) : state :=
  let counter := scheduler_counter s + 1 in
  let plots := plot_losses s ++ [(epoch, mean_loss, mean_val_loss)] in
  let compare_loss := mean_val_loss in
  let is_best := lt compare_loss (min_loss s) in
  let '(counter, minl, ckpts) :=
    if is_best
    then (0, py_min compare_loss (min_loss s),
          {| ck_experiment := experiment_name self; ck_epoch := epoch;
             ck_val_loss := mean_val_loss |} :: saved s)
    else (counter, min_loss s, saved s) in
  let '(counter, steps) :=
    if 5 <? counter then (0, epoch :: lr_steps s) else (counter, lr_steps s) in
  {| min_loss := minl; scheduler_counter := counter; plot_losses := plots;
     saved := ckpts; lr_steps := steps |}.

(** The loop from epoch [epoch] on, over the per-epoch means. *)
Fixpoint run_epochs (self : Config) (epoch : nat) (means : list (loss * loss))
    (s : state) : state :=
  match means with
  | [] => s
  | (l, v) :: rest => run_epochs self (S epoch) rest (epoch_body self epoch l v s)
  end.

(** [train_loop(self)]: [means] gives the means of the [max_epoch] epochs. *)
Definition train_loop (self : Config) (means : list (loss * loss)) (s : state) : state :=
  run_epochs self 0 (firstn (max_epoch self) means)
    {| min_loss := min_loss s; scheduler_counter := 0; plot_losses := [];
       saved := saved s; lr_steps := lr_steps s |}.

End Train.

(* ===================================================================== *)
(** ** class Predict *)
(* ===================================================================== *)

Module Predict.

(** Values of a rasterio profile (a dict from option names to values). *)
Inductive pyval := VInt (n : Z) | VStr (s : string).

(** A file: a raster with its profile and its (C,H,W) bands, or anything
    that rasterio cannot open. *)
Record raster := { profile : gmap string pyval; bands : Np.arr3 Z }.

Inductive file := Raster (r : raster) | Blob.

(** Messages passed to [logging.info], by format string. *)
Inductive logmsg :=
| StartingPrediction                 (* 'Starting Prediction Step...' *)
| Loading (model : string)           (* f'Loading {self.model_filename}' *)
| LoadedModel                        (* 'Loaded model...' *)
| FilesToPredict (n : nat)           (* f'{len(self.data_predict)} files to predict.' *)
| LogFile (filename : string)        (* f'File: {filename}' *)
| TensorShape (h w c : nat)          (* f'Tensor shape: {img.shape}' *)
| SavedFilename (raster_name : string)    (* f'Saved Filename: {raster_name}' *)
| AlreadyPredicted (raster_name : string) (* f'{raster_name} already predicted.' *).

(** What a run does to the outside, in order. *)
Inductive event :=
| Log (m : logmsg)
| OpenRaster (path : string)         (* xr.open_rasterio / rio.open for reading *)
| LoadModel (path : string)          (* torch.load *)
| Inference (path : string)          (* tiling, model forward passes, merge *)
| WriteRaster (path : string)        (* rio.open(out_tif, 'w') and dst.write *).

Record world := { fs : gmap string file; trace : list event }.

Inductive exn :=
| RasterioIOError (path : string)
| InferenceError (path : string)
| IndexError
| ValueError.

(** Computations that read and write the world and may raise. *)
Inductive result (A : Type) := Ok (a : A) | Raised (e : exn).
Arguments Ok {A} a.
Arguments Raised {A} e.

Definition M (A : Type) := world -> result A * world.

Definition ret {A} (a : A) : M A := fun w => (Ok a, w).
Definition raise {A} (e : exn) : M A := fun w => (Raised e, w).
Definition bind {A B} (m : M A) (k : A -> M B) : M B :=
  fun w => match m w with
           | (Ok a, w') => k a w'
           | (Raised e, w') => (Raised e, w')
           end.

Notation "'let*' x ':=' m 'in' k" := (bind m (fun x => k))
  (at level 10, x pattern, m at level 100, k at level 200).
Notation "m ';;' k" := (bind m (fun _ => k))
  (at level 100, k at level 200, right associativity).

Definition emit (e : event) : M unit :=
  fun w => (Ok tt, {| fs := fs w; trace := trace w ++ [e] |}).

Definition logging_info (m : logmsg) : M unit := emit (Log m).

(** [os.path.isfile] *)
Definition isfile (path : string) : M bool :=
  fun w => (Ok (bool_decide (is_Some (fs w !! path))), w).

(** Opening a path as a raster for reading. *)
Definition open_raster (path : string) : M raster :=
  fun w => match fs w !! path with
           | Some (Raster r) => (Ok r, {| fs := fs w; trace := trace w ++ [OpenRaster path] |})
           | _ => (Raised (RasterioIOError path), w)
           end.

Definition write_raster (path : string) (r : raster) : M unit :=
  fun w => (Ok tt, {| fs := <[ path := Raster r ]> (fs w);
                      trace := trace w ++ [WriteRaster path] |}).

(** The collaborators that are not in this module.
    - [drop]: the band dropping of xarray in [modify_bands];
    - [segment]: lines 470-510 of [_predict] after the [ImageSlicer] call
      is set up: pytorch_toolbelt's slicer and merger around the model,
      arg-max, crop, squeeze and scipy's median filter; it receives the
      [tile_size] and [tile_step] arguments given to [ImageSlicer] and the
      (H,W,C) image, and yields the 2-D uint8 mask or raises;
    - [read_masks]: rasterio's [src.read_masks(1)], 0 where the source
      has no data and 255 elsewhere;
    - [glob]: [glob.glob];
    - [getctime]: [os.path.getctime]; times are only compared and are
      integers here. *)
Record externals := {
  drop : Np.arr3 Z -> Np.arr3 Z;
  segment : Z * Z -> Z * Z -> Np.arr3 Q -> option (Np.arr2 Z);
  read_masks : raster -> Np.arr2 Z;
  glob : string -> list string;
  getctime : string -> Z
}.

(** The keyword arguments [_predict] gives to [ImageSlicer]. *)
Definition slicer_tile_size (self : Config) : Z * Z := (tile_size self, tile_size self).
Definition slicer_tile_step (self : Config) : Z * Z := (overlap self, overlap self).

(** [raster_name] of [_predict]:
    [os.path.join(self.inference_output_dir, filename[:-4].split('/')[-1] + '_pred.tif')] *)
Definition raster_name (self : Config) (filename : string) : string :=
  Py.path_join (inference_output_dir self)
    (Py.last_item (Py.split_slash (Py.drop_last 4 filename)) "" ++ "_pred.tif")%string.

(** What [_predict] does to one pixel value between reading the raster and
    tiling it: [astype(np.int16)], division by [np.iinfo(img.dtype).max],
    then [modify_pixel_extremity(img, xmin=self.data_min, xmax=self.data_max)]. *)
Definition _predict_pixel (self : Config) (v : Z) : Q :=
  let v16 := Np.astype_int16 v in
  let normalized := (inject_Z v16 / inject_Z (CloudDataset.iinfo_max CloudDataset.int16))%Q in
  Preprocess.modify_pixel_extremity_float (data_min self) (data_max self) normalized.

(** Element-wise combination of two arrays of one shape; [None] is the
    IndexError of a boolean index whose shape differs from the array's. *)
Fixpoint zip_row {A} (f : A -> A -> A) (a b : list A) : option (list A) :=
  match a, b with
  | [], [] => Some []
  | x :: a', y :: b' => r ← zip_row f a' b'; Some (f x y :: r)
  | _, _ => None
  end.

Fixpoint zip_arr2 {A} (f : A -> A -> A) (a b : Np.arr2 A) : option (Np.arr2 A) :=
  match a, b with
  | [], [] => Some []
  | x :: a', y :: b' => r ← zip_row f x y; rs ← zip_arr2 f a' b'; Some (r :: rs)
  | _, _ => None
  end.

(** The array part of [arr_to_tif]:
      segments = segments.astype('int16')
      nodatavals[nodatavals == 0] = ndval
      segments[nodatavals == ndval] = nodatavals[nodatavals == ndval]
    where [masks] is [src.read_masks(1)]. *)
Definition apply_nodata (masks segments : Np.arr2 Z) (ndval : Z) : option (Np.arr2 Z) :=
  let nodatavals := Np.map2d Np.astype_int16 masks in
  let segments := Np.map2d Np.astype_int16 segments in
  let nodatavals := Np.map2d (fun m => if m =? 0 then Np.astype_int16 ndval else m) nodatavals in
  zip_arr2 (fun s m => if m =? ndval then m else s) segments nodatavals.

(** The profile of the output: the source's, with 'count' and 'dtype' set. *)
Definition out_meta (meta : gmap string pyval) : gmap string pyval :=
  <[ "dtype"%string := VStr "int16" ]> (<[ "count"%string := VInt 1 ]> meta).

(** [arr_to_tif(self, raster_f, segments, out_tif, ndval)], for [segments]
    given as an array. *)
Definition arr_to_tif (ext : externals) (raster_f : string) (segments : Np.arr2 Z)
    (out_tif : string) (ndval : Z) : M unit :=
  let* src := open_raster raster_f in
  match apply_nodata (read_masks ext src) segments ndval with
  | None => raise IndexError
  | Some segments' =>
      write_raster out_tif {| profile := out_meta (profile src); bands := [segments'] |}
  end.

Definition shape_of {A} (t : Np.arr3 A) : nat * nat * nat :=
  (length t, length (hd [] t), length (hd [] (hd [] t))).

(** [_predict(self, filename)] *)
Definition _predict (ext : externals) (self : Config) (filename : string) : M unit :=
  logging_info (LogFile filename) ;;
  let raster_name := raster_name self filename in
  let* present := isfile raster_name in
  if negb present then
    let* src := open_raster filename in
    let img := Preprocess.modify_bands (drop ext) self (bands src) in
    let img := Np.map3d (_predict_pixel self) (Np.moveaxis_0_last img) in
    let '(h, w, c) := shape_of img in
    logging_info (TensorShape h w c) ;;
    emit (Inference filename) ;;
    match segment ext (slicer_tile_size self) (slicer_tile_step self) img with
    | None => raise (InferenceError filename)
    | Some merged_mask =>
        arr_to_tif ext filename merged_mask raster_name (-9999) ;;
        logging_info (SavedFilename raster_name)
    end
  else
    logging_info (AlreadyPredicted raster_name).

(** [for r in self.data_predict: self._predict(r)] *)
Fixpoint predict_files (ext : externals) (self : Config) (files : list string) : M unit :=
  match files with
  | [] => ret tt
  | r :: rest => _predict ext self r ;; predict_files ext self rest
  end.

(** The model file [predict] settles on: the attribute when it is set,
    else the [*.pt] file of [model_dir] that [max] picks by [getctime]. *)
Definition select_model (ext : externals) (self : Config) : M string :=
  match model_filename self with
  | Some f => ret f
  | None =>
      let models_list := glob ext (Py.path_join (model_dir self) "*.pt") in
      match Py.max_key (getctime ext) models_list with
      | Some f => ret f
      | None => raise ValueError
      end
  end.

(** [predict(self)] *)
Definition predict (ext : externals) (self : Config) : M unit :=
  logging_info StartingPrediction ;;
  let* model_filename := select_model ext self in
  logging_info (Loading model_filename) ;;
  logging_info LoadedModel ;;
  emit (LoadModel model_filename) ;;
  let data_predict := glob ext (data_predict self) in
  logging_info (FilesToPredict (length data_predict)) ;;
  predict_files ext self data_predict.

End Predict.

(* ===================================================================== *)
(** ** Notions used to state the properties *)
(* ===================================================================== *)

Module Props.

(** A string without the path separator. *)
Fixpoint no_slash (s : string) : bool :=
  match s with
  | EmptyString => true
  | String c r => negb (Ascii.eqb c "/"%char) && no_slash r
  end.

(** The entries one call of [list_files] appends for a directory. *)
Definition entries_of (listdir : string -> list string) (dataset_dir : string)
    : list CloudDataset.entry :=
  map (fun i =>
         {| CloudDataset.image := Py.path_join (Py.path_join dataset_dir "images") i;
            CloudDataset.label := Py.path_join (Py.path_join dataset_dir "labels") i |})
      (listdir (Py.path_join dataset_dir "images")).

(** Calls of [list_files] without the [files_list] argument, one per
    directory, in order. *)
Definition list_files_each (listdir : string -> list string) (dirs : list string)
    (st : gmap nat (list CloudDataset.entry)) : gmap nat (list CloudDataset.entry) :=
  foldl (fun s d => (CloudDataset.list_files listdir d None s).2) st dirs.

(** Element [a[i, j]] of a 2-D array. *)
Definition get2 {A} (a : Np.arr2 A) (i j : nat) : option A :=
  match a !! i with
  | Some r => r !! j
  | None => None
  end.

Definition same_shape {A B} (a : Np.arr2 A) (b : Np.arr2 B) : Prop :=
  Forall2 (fun r1 r2 => length r1 = length r2) a b.

Definition all2 {A} (P : A -> Prop) (a : Np.arr2 A) : Prop := Forall (Forall P) a.

(** Validation losses that keep improving on [m], and validation losses
    that keep growing from [m]. *)
Fixpoint decreasing_from (m : Train.loss) (l : list Train.loss) : Prop :=
  match l with
  | [] => True
  | v :: r => Train.lt v m = true /\ decreasing_from v r
  end.

Fixpoint increasing_from (m : Train.loss) (l : list Train.loss) : Prop :=
  match l with
  | [] => True
  | v :: r => Train.lt m v = true /\ increasing_from v r
  end.

(** The checkpoints written for the validation losses [vals] of the
    epochs [epoch], [epoch + 1], ..., latest first. *)
Fixpoint checkpoints_of (self : Config) (epoch : nat) (vals : list Train.loss)
    (acc : list Train.checkpoint) : list Train.checkpoint :=
  match vals with
  | [] => acc
  | v :: r =>
      checkpoints_of self (S epoch) r
        ({| Train.ck_experiment := experiment_name self; Train.ck_epoch := epoch;
            Train.ck_val_loss := v |} :: acc)
  end.

(** The collaborators [ext] with a [segment] that raises unless it is
    given exactly the tile size [ts] and the tile step [st]. *)
Definition segment_only_at (ext : Predict.externals) (ts st : Z * Z) : Predict.externals :=
  {| Predict.drop := Predict.drop ext;
     Predict.segment := fun ts' st' img =>
       if bool_decide (ts' = ts /\ st' = st) then Predict.segment ext ts' st' img else None;
     Predict.read_masks := Predict.read_masks ext;
     Predict.glob := Predict.glob ext;
     Predict.getctime := Predict.getctime ext |}.

(** The rotation that the draws [d] select, on one (H,W) array. *)
Definition rotation_of {A} (d : CloudDataset.draws) (m : Np.arr2 A) : Np.arr2 A :=
  let m := if CloudDataset.rot_90 d then Np.rot90_01 1 m else m in
  let m := if CloudDataset.rot_180 d then Np.rot90_01 2 m else m in
  if CloudDataset.rot_270 d then Np.rot90_01 3 m else m.

(** The two log lines of a skipped input. *)
Definition skip_events (self : Config) (filename : string) : list Predict.event :=
  [Predict.Log (Predict.LogFile filename);
   Predict.Log (Predict.AlreadyPredicted (Predict.raster_name self filename))].

(** An array of [r] rows of [c] items each. *)
Definition rect {A} (r c : nat) (m : Np.arr2 A) : Prop :=
  length m = r /\ Forall (fun row => length row = c) m.

(** A (d0,d1,d2) array. *)
Definition rect3 {A} (d0 d1 d2 : nat) (t : Np.arr3 A) : Prop :=
  length t = d0 /\ Forall (rect d1 d2) t.

(** Element [t[i, j, k]] of a 3-D array. *)
Definition get3 {A} (t : Np.arr3 A) (i j k : nat) : option A :=
  match t !! i with
  | Some m => get2 m j k
  | None => None
  end.

(** The rows that one epoch appends to [plot_losses], from epoch [epoch] on. *)
Fixpoint plot_rows (epoch : nat) (means : list (Train.loss * Train.loss))
    : list (nat * Train.loss * Train.loss) :=
  match means with
  | [] => []
  | (l, v) :: rest => (epoch, l, v) :: plot_rows (S epoch) rest
  end.

End Props.

(* ===================================================================== *)
(** ** Concrete inputs *)
(* ===================================================================== *)

Module Examples.

Definition cfg : Config :=
  {| tile_size := 256; overlap := 64; data_min := 0; data_max := 10000;
     input_bands := ["B"; "G"; "R"]%string; output_bands := ["B"]%string;
     model_dir := "models"; model_filename := None;
     data_predict := "in/*.tif"; inference_output_dir := "out";
     experiment_name := "exp"; max_epoch := 6 |}.

(** A 2x2 one-band raster whose lower-left pixel has no data. *)
Definition src : Predict.raster :=
  {| Predict.profile := {[ "count"%string := Predict.VInt 1;
                           "dtype"%string := Predict.VStr "uint16";
                           "crs"%string := Predict.VStr "EPSG:32637" ]};
     Predict.bands := [[[100; 20000]; [0; 300]]] |}.

Definition masks : Np.arr2 Z := [[255; 255]; [0; 255]].

(** Two checkpoints: [old.pt] was written first and touched last. *)
Definition getctime (path : string) : Z :=
  if String.eqb path "models/old.pt" then 100
  else if String.eqb path "models/new.pt" then 200 else 0.

Definition getmtime (path : string) : Z :=
  if String.eqb path "models/old.pt" then 300
  else if String.eqb path "models/new.pt" then 200 else 0.

Definition glob (pattern : string) : list string :=
  if String.eqb pattern "models/*.pt" then ["models/old.pt"; "models/new.pt"]%string
  else if String.eqb pattern "in/*.tif" then ["in/a.tif"; "in/b.tif"]%string
  else [].

(** A segmentation that labels every pixel with class 1. *)
Definition ext : Predict.externals :=
  {| Predict.drop := fun img => img;
     Predict.segment := fun _ _ img => Some (map (map (fun _ => 1)) img);
     Predict.read_masks := fun _ => masks;
     Predict.glob := glob;
     Predict.getctime := getctime |}.

(** [in/a.tif] is not a raster, [in/b.tif] is one; nothing was predicted yet. *)
Definition w0 : Predict.world :=
  {| Predict.fs := {[ "in/a.tif"%string := Predict.Blob;
                      "in/b.tif"%string := Predict.Raster src ]};
     Predict.trace := [] |}.

(** The same with the prediction of [in/b.tif] already on disk. *)
Definition w1 : Predict.world :=
  {| Predict.fs := <[ "out/b_pred.tif"%string := Predict.Blob ]> (Predict.fs w0);
     Predict.trace := [] |}.

(** The raster [in/b.tiff], with [out/b_pred.tif] already on disk. *)
Definition w2 : Predict.world :=
  {| Predict.fs := {[ "in/b.tiff"%string := Predict.Raster src;
                      "out/b_pred.tif"%string := Predict.Blob ]};
     Predict.trace := [] |}.

Definition listdir (path : string) : list string :=
  if String.eqb path "data/images" then ["t0.tif"; "t1.tif"]%string
  else if String.eqb path "more/images" then ["u0.tif"; "u1.tif"]%string
  else [].

(** A one-band 2x2 tile, stored (H,W,C), and its label. *)
Definition imread_image (path : string) : option (CloudDataset.dtype * Np.arr3 Z) :=
  if String.eqb path "data/images/t0.tif"
  then Some (CloudDataset.int16, [[[1]; [2]]; [[3]; [4]]])
  else None.

Definition imread_mask (path : string) : option (Np.arr2 Z) :=
  if String.eqb path "data/labels/t0.tif" then Some [[1; 2]; [3; 4]] else None.

Definition only_flip_lr : CloudDataset.draws :=
  {| CloudDataset.flip_lr := true; CloudDataset.flip_ud := false;
     CloudDataset.rot_90 := false; CloudDataset.rot_180 := false;
     CloudDataset.rot_270 := false |}.

Definition only_flip_ud : CloudDataset.draws :=
  {| CloudDataset.flip_lr := false; CloudDataset.flip_ud := true;
     CloudDataset.rot_90 := false; CloudDataset.rot_180 := false;
     CloudDataset.rot_270 := false |}.

Definition fin (n : Z) : Train.loss := Train.Fin (inject_Z n).

(** A 3x4 label array with 1-based classes, among them 14 and 15. *)
Definition labels : Np.arr2 Z := [[1; 2; 14; 15]; [3; 1; 6; 14]; [2; 2; 15; 9]].

(** A 3x4 two-band image, stored (H,W,C). *)
Definition image_hwc : Np.arr3 Z :=
  [[[10; 11]; [20; 21]; [30; 31]; [40; 41]];
   [[50; 51]; [60; 61]; [70; 71]; [80; 81]];
   [[90; 91]; [100; 101]; [110; 111]; [120; 121]]].

(** A model directory without checkpoints. *)
Definition ext_no_models : Predict.externals :=
  {| Predict.drop := fun img => img;
     Predict.segment := fun _ _ img => Some (map (map (fun _ => 1)) img);
     Predict.read_masks := fun _ => masks;
     Predict.glob := fun _ => [];
     Predict.getctime := getctime |}.

End Examples.

(* ===================================================================== *)
(** ** CloudDataset: the shared default list of [list_files] *)
(* ===================================================================== *)

Section ListFiles.

Import CloudDataset.

Variable listdir : string -> list string.

Lemma deref_append (l : loc) (e : entry) (st : gmap nat (list entry)) :
  deref (append l e st) l = deref st l ++ [e].
Proof. unfold deref at 1, append. by rewrite lookup_insert_eq. Qed.

Lemma deref_foldl_append {I} (g : I -> entry) (l : loc) (xs : list I)
    (st : gmap nat (list entry)) :
  deref (foldl (fun s i => append l (g i) s) st xs) l = deref st l ++ map g xs.
Proof.
  revert st. induction xs as [|x xs IH]; intros st; simpl.
  - by rewrite app_nil_r.
  - rewrite IH, deref_append, <- app_assoc. reflexivity.
Qed.

Lemma list_files_default_loc (d : string) (st : gmap nat (list entry)) :
  (list_files listdir d None st).1 = files_list_default.
Proof. reflexivity. Qed.

Lemma list_files_default_contents (d : string) (st : gmap nat (list entry)) :
  deref (list_files listdir d None st).2 files_list_default
  = deref st files_list_default ++ Props.entries_of listdir d.
Proof. unfold list_files. simpl. apply deref_foldl_append. Qed.

Lemma list_files_each_contents (dirs : list string) (st : gmap nat (list entry)) :
  deref (Props.list_files_each listdir dirs st) files_list_default
  = deref st files_list_default ++ concat (map (Props.entries_of listdir) dirs).
Proof.
  unfold Props.list_files_each. revert st.
  induction dirs as [|d dirs IH]; intros st; cbn [foldl map concat].
  - by rewrite app_nil_r.
  - rewrite IH, list_files_default_contents, <- app_assoc. reflexivity.
Qed.

Lemma length_entries_each (dirs : list string) (n : nat) :
  Forall (fun d => length (listdir (Py.path_join d "images")) = n) dirs ->
  length (concat (map (Props.entries_of listdir) dirs)) = (length dirs * n)%nat.
Proof.
  induction 1 as [|d dirs Hd _ IH]; simpl; [reflexivity|].
  rewrite length_app, IH. unfold Props.entries_of. rewrite length_map, Hd.
  reflexivity.
Qed.

(** C9. [list_files] keeps one default accumulator for all the calls that
    leave [files_list] out: when the images subdirectory of every dataset
    directory holds [n] files, the call that follows [k - 1] earlier ones
    returns the default list, which now holds the entries of all [k]
    calls in order, [k * n] of them, every earlier entry included; the
    [CloudDataset] built by that call has this length. *)
Theorem list_files_shared_default (earlier : list string) (d : string) (n : nat) :
  Forall (fun x => length (listdir (Py.path_join x "images")) = n) (earlier ++ [d]) ->
  let st := Props.list_files_each listdir earlier initial_store in
  let r := list_files listdir d None st in
  let ds := __init__ listdir d true st in
  deref r.2 r.1 = concat (map (Props.entries_of listdir) (earlier ++ [d]))
  /\ length (deref r.2 r.1) = (S (length earlier) * n)%nat
  /\ (forall e, e ∈ deref st files_list_default -> e ∈ deref r.2 r.1)
  /\ __len__ ds.1 ds.2 = (S (length earlier) * n)%nat.
Proof.
  intros Hn st r ds.
  assert (Hr : deref r.2 r.1 = concat (map (Props.entries_of listdir) (earlier ++ [d]))).
  { subst r. rewrite list_files_default_loc, list_files_default_contents.
    subst st. rewrite list_files_each_contents.
    rewrite map_app, concat_app. simpl. rewrite app_nil_r. reflexivity. }
  assert (Hlen : length (deref r.2 r.1) = (S (length earlier) * n)%nat).
  { rewrite Hr, (length_entries_each _ n Hn), length_app. simpl. lia. }
  split; [exact Hr|]. split; [exact Hlen|]. split.
  - intros e He. subst r. rewrite list_files_default_loc, list_files_default_contents.
    apply elem_of_app. by left.
  - exact Hlen.
Qed.

End ListFiles.

(** Two datasets built one after the other over directories of two files each. *)
Lemma list_files_shared_default_witness :
  Forall (fun x => length (Examples.listdir (Py.path_join x "images")) = 2%nat)
         (["data"%string] ++ ["more"%string])
  /\ CloudDataset.__len__
       (CloudDataset.__init__ Examples.listdir "more" true
          (Props.list_files_each Examples.listdir ["data"%string]
             CloudDataset.initial_store)).1
       (CloudDataset.__init__ Examples.listdir "more" true
          (Props.list_files_each Examples.listdir ["data"%string]
             CloudDataset.initial_store)).2
     = 4%nat.
Proof.
  assert (H : Forall (fun x => length (Examples.listdir (Py.path_join x "images")) = 2%nat)
                     (["data"%string] ++ ["more"%string])).
  { repeat constructor. }
  split; [exact H|].
  exact (proj2 (proj2 (proj2
    (list_files_shared_default Examples.listdir ["data"%string] "more" 2 H)))).
Defined.

(* ===================================================================== *)
(** ** CloudDataset: augmentation of the image and its mask *)
(* ===================================================================== *)

Section Augmentation.

Import CloudDataset.

(** The three rotations name the spatial axes of each tensor, [dims=[1, 2]]
    for the image and [dims=[0, 1]] for the mask: without flips every
    channel of the image is rotated exactly as the mask is. *)
Lemma augment_rotations_aligned {A B} (d : draws) (x : Np.arr3 A) (y : Np.arr2 B) :
  flip_lr d = false -> flip_ud d = false ->
  augment_xy d x y = (map (Props.rotation_of d) x, Props.rotation_of d y).
Proof.
  destruct d as [lr ud r1 r2 r3]; simpl; intros -> ->.
  unfold augment_xy, Props.rotation_of, Np.rot90_12; simpl.
  destruct r1, r2, r3; simpl; rewrite ?map_map, ?map_id; reflexivity.
Qed.

(** The flips name no axis: [fliplr] reverses dimension 1 and [flipud]
    dimension 0 of whatever tensor they get.  On the (C,H,W) image these
    are the rows and the channels, on the (H,W) mask the columns and the rows. *)
Lemma augment_flip_lr_axes {A B} (x : Np.arr3 A) (y : Np.arr2 B) :
  augment_xy Examples.only_flip_lr x y = (map Np.flipud x, map (@rev B) y).
Proof. reflexivity. Qed.

Lemma augment_flip_ud_axes {A B} (x : Np.arr3 A) (y : Np.arr2 B) :
  augment_xy Examples.only_flip_ud x y = (rev x, Np.flipud y).
Proof. reflexivity. Qed.

(** C10. The image and the mask do not stay aligned under the flips.  The
    tile [data/images/t0.tif] holds in its single channel the values of its
    label, [[1, 2], [3, 4]].  When only the left-right draw succeeds,
    [__getitem__] returns the image with its rows swapped and the mask with
    its columns swapped; when only the up-down draw succeeds, the image
    comes back unchanged (its one channel reversed) and the mask with its
    rows swapped. *)
Theorem getitem_flips_misaligned :
  let ds := __init__ Examples.listdir "data" true initial_store in
  let norm := Np.map3d (fun v => inject_Z v / inject_Z 32767)%Q in
  __getitem__ Examples.imread_image Examples.imread_mask ds.1 ds.2 0 false
              Examples.only_flip_lr
  = Some (norm [[[1; 2]; [3; 4]]], [[1; 2]; [3; 4]])
  /\ __getitem__ Examples.imread_image Examples.imread_mask ds.1 ds.2 0 true
              Examples.only_flip_lr
     = Some (norm [[[3; 4]; [1; 2]]], [[2; 1]; [4; 3]])
  /\ __getitem__ Examples.imread_image Examples.imread_mask ds.1 ds.2 0 true
              Examples.only_flip_ud
     = Some (norm [[[1; 2]; [3; 4]]], [[3; 4]; [1; 2]]).
Proof. vm_compute. repeat split. Qed.

End Augmentation.

(* ===================================================================== *)
(** ** Train: checkpoints and learning-rate decay *)
(* ===================================================================== *)

Section TrainLoop.

Import Train.

Lemma Qltb_lt (x y : Q) : Qltb x y = true <-> (x < y)%Q.
Proof.
  unfold Qltb. rewrite negb_true_iff. split.
  - intros H. apply Qnot_le_lt. intros Hle. apply Qle_bool_iff in Hle. congruence.
  - intros H. destruct (Qle_bool y x) eqn:E; [|reflexivity].
    apply Qle_bool_iff in E. exfalso. exact (Qlt_not_le _ _ H E).
Qed.

Lemma lt_asym (a b : loss) : lt a b = true -> lt b a = false.
Proof.
  destruct a as [| |x|], b as [| |y|]; simpl; try congruence.
  intros H. apply Qltb_lt in H. apply not_true_is_false. intros H'.
  apply Qltb_lt in H'. exact (Qlt_irrefl _ (Qlt_trans _ _ _ H H')).
Qed.

Lemma lt_trans (a b c : loss) : lt a b = true -> lt b c = true -> lt a c = true.
Proof.
  destruct a as [| |x|], b as [| |y|], c as [| |z|]; simpl; try congruence.
  rewrite !Qltb_lt. apply Qlt_trans.
Qed.

Lemma py_min_best (v m : loss) : lt v m = true -> py_min v m = v.
Proof. intros H. unfold py_min. by rewrite (lt_asym _ _ H). Qed.

Lemma last_cons_default {A} (x : A) (l : list A) (d : A) :
  List.last (x :: l) d = List.last l x.
Proof.
  revert x d. induction l as [|y l IH]; intros x d; [reflexivity|].
  change (List.last (x :: y :: l) d) with (List.last (y :: l) d).
  rewrite (IH y d), (IH y x). reflexivity.
Qed.

Variable self : Config.

(** An epoch whose validation loss improves on [self.min_loss]. *)
Lemma epoch_body_best (epoch : nat) (l v : loss) (s : state) :
  lt v (min_loss s) = true ->
  epoch_body self epoch l v s
  = {| min_loss := v; scheduler_counter := 0;
       plot_losses := plot_losses s ++ [(epoch, l, v)];
       saved := {| ck_experiment := experiment_name self; ck_epoch := epoch;
                   ck_val_loss := v |} :: saved s;
       lr_steps := lr_steps s |}.
Proof. intros H. unfold epoch_body. rewrite H, (py_min_best _ _ H). reflexivity. Qed.

(** An epoch whose validation loss does not. *)
Lemma epoch_body_not_best (epoch : nat) (l v : loss) (s : state) :
  lt v (min_loss s) = false ->
  epoch_body self epoch l v s
  = {| min_loss := min_loss s;
       scheduler_counter := if 5 <? scheduler_counter s + 1 then 0
                            else scheduler_counter s + 1;
       plot_losses := plot_losses s ++ [(epoch, l, v)];
       saved := saved s;
       lr_steps := if 5 <? scheduler_counter s + 1 then epoch :: lr_steps s
                   else lr_steps s |}.
Proof.
  intros H. unfold epoch_body. rewrite H.
  destruct (5 <? scheduler_counter s + 1); reflexivity.
Qed.

Lemma run_epochs_app (epoch : nat) (m1 m2 : list (loss * loss)) (s : state) :
  run_epochs self epoch (m1 ++ m2) s
  = run_epochs self (epoch + length m1) m2 (run_epochs self epoch m1 s).
Proof.
  revert epoch s. induction m1 as [|[l v] m1 IH]; intros epoch s; simpl.
  - by rewrite Nat.add_0_r.
  - rewrite IH. f_equal. lia.
Qed.

Lemma length_checkpoints_of (epoch : nat) (vals : list loss) (acc : list checkpoint) :
  length (Props.checkpoints_of self epoch vals acc) = (length vals + length acc)%nat.
Proof.
  revert epoch acc. induction vals as [|v vals IH]; intros epoch acc; simpl; [reflexivity|].
  rewrite IH. simpl. lia.
Qed.

(** While the validation loss keeps improving, every epoch saves. *)
Lemma run_epochs_decreasing (epoch : nat) (means : list (loss * loss)) (s : state) :
  Props.decreasing_from (min_loss s) (map snd means) ->
  saved (run_epochs self epoch means s)
  = Props.checkpoints_of self epoch (map snd means) (saved s)
  /\ min_loss (run_epochs self epoch means s) = List.last (map snd means) (min_loss s).
Proof.
  revert epoch s. induction means as [|[l v] means IH]; intros epoch s; simpl.
  - intros _. split; reflexivity.
  - intros [Hv Hrest].
    specialize (IH (S epoch) (epoch_body self epoch l v s)).
    rewrite (epoch_body_best _ _ _ _ Hv) in IH |- *.
    destruct (IH Hrest) as [IH1 IH2]. split; [exact IH1|].
    rewrite IH2. symmetry. apply last_cons_default.
Qed.

(** Once it only grows, no epoch does. *)
Lemma run_epochs_increasing (epoch : nat) (means : list (loss * loss)) (s : state) (m : loss) :
  (m = min_loss s \/ lt (min_loss s) m = true) ->
  Props.increasing_from m (map snd means) ->
  saved (run_epochs self epoch means s) = saved s
  /\ min_loss (run_epochs self epoch means s) = min_loss s.
Proof.
  revert epoch s m. induction means as [|[l v] means IH]; intros epoch s m Hm; simpl.
  - intros _. split; reflexivity.
  - intros [Hv Hrest].
    assert (Hlt : lt (min_loss s) v = true).
    { destruct Hm as [->|Hm]; [exact Hv|exact (lt_trans _ _ _ Hm Hv)]. }
    pose proof (epoch_body_not_best epoch l v s (lt_asym _ _ Hlt)) as E.
    destruct (IH (S epoch) (epoch_body self epoch l v s) v) as [IH1 IH2].
    + right. rewrite E. exact Hlt.
    + exact Hrest.
    + rewrite IH1, IH2, E. split; reflexivity.
Qed.

(** C5. In every epoch a checkpoint is saved exactly when the mean
    validation loss is strictly below [self.min_loss], which then takes
    that value, and otherwise nothing is saved and [self.min_loss] stays;
    so a run whose validation loss strictly decreases over its first epochs
    and strictly increases over the rest saves one checkpoint for each of
    the first and none for the rest. *)
Theorem checkpoint_iff_strict_improvement :
  (forall (epoch : nat) (l v : loss) (s : state),
      let s' := epoch_body self epoch l v s in
      (lt v (min_loss s) = true ->
       saved s' = {| ck_experiment := experiment_name self; ck_epoch := epoch;
                     ck_val_loss := v |} :: saved s
       /\ min_loss s' = v)
      /\ (lt v (min_loss s) = false ->
          saved s' = saved s /\ min_loss s' = min_loss s))
  /\ (forall (dec inc : list (loss * loss)),
      length (dec ++ inc) = max_epoch self ->
      Props.decreasing_from PosInf (map snd dec) ->
      Props.increasing_from (List.last (map snd dec) PosInf) (map snd inc) ->
      let s' := train_loop self (dec ++ inc) initial in
      saved s' = Props.checkpoints_of self 0 (map snd dec) []
      /\ length (saved s') = length dec).
Proof.
  split.
  - intros epoch l v s s'. split; intros H; subst s'.
    + rewrite (epoch_body_best _ _ _ _ H). split; reflexivity.
    + rewrite (epoch_body_not_best _ _ _ _ H). split; reflexivity.
  - intros dec inc Hlen Hdec Hinc s'. subst s'. unfold train_loop.
    rewrite <- Hlen, firstn_all, run_epochs_app. simpl.
    destruct (run_epochs_decreasing 0 dec initial Hdec) as [D1 D2].
    destruct (run_epochs_increasing (length dec) inc (run_epochs self 0 dec initial)
                (List.last (map snd dec) PosInf)) as [I1 I2].
    + left. symmetry. exact D2.
    + exact Hinc.
    + change {| min_loss := PosInf; scheduler_counter := 0; plot_losses := [];
                saved := []; lr_steps := [] |} with initial.
      rewrite I1, D1. split; [reflexivity|].
      rewrite length_checkpoints_of, length_map. simpl. lia.
Qed.

(** Epochs without improvement only count up while the counter stays
    within 5. *)
Lemma run_epochs_stale (stale : list (loss * loss)) (epoch : nat) (s : state) :
  Forall (fun lv => lt lv.2 (min_loss s) = false) stale ->
  scheduler_counter s + Z.of_nat (length stale) <= 5 ->
  let s' := run_epochs self epoch stale s in
  lr_steps s' = lr_steps s
  /\ scheduler_counter s' = scheduler_counter s + Z.of_nat (length stale)
  /\ min_loss s' = min_loss s.
Proof.
  revert epoch s. induction stale as [|[l v] stale IH]; intros epoch s Hst Hc; simpl.
  - repeat split. lia.
  - inversion Hst as [|? ? Hv Hrest]; subst. simpl in Hv, Hc.
    pose proof (epoch_body_not_best epoch l v s Hv) as E.
    assert (Hno : (5 <? scheduler_counter s + 1) = false) by (apply Z.ltb_ge; lia).
    rewrite Hno in E.
    destruct (IH (S epoch) (epoch_body self epoch l v s)) as (I1 & I2 & I3).
    + rewrite E. exact Hrest.
    + rewrite E. simpl. lia.
    + rewrite I1, I2, I3, E. simpl. repeat split. lia.
Qed.

(** C6, as the code has it.  The learning-rate schedule is stepped when
    the counter of epochs since the last improvement or decay exceeds 5,
    that is at the sixth consecutive epoch without improvement and not
    before; the counter is set to zero by that decay and by every epoch
    whose validation loss improves on [self.min_loss]. *)
Theorem lr_decay_at_sixth_stale_epoch :
  (forall (epoch : nat) (l v : loss) (s : state),
      let s' := epoch_body self epoch l v s in
      (lt v (min_loss s) = true ->
       scheduler_counter s' = 0 /\ lr_steps s' = lr_steps s)
      /\ (lt v (min_loss s) = false -> 5 < scheduler_counter s + 1 ->
          scheduler_counter s' = 0 /\ lr_steps s' = epoch :: lr_steps s)
      /\ (lt v (min_loss s) = false -> scheduler_counter s + 1 <= 5 ->
          scheduler_counter s' = scheduler_counter s + 1 /\ lr_steps s' = lr_steps s))
  /\ (forall (epoch : nat) (stale : list (loss * loss)) (s : state),
      scheduler_counter s = 0 ->
      Forall (fun lv => lt lv.2 (min_loss s) = false) stale ->
      let s' := run_epochs self epoch stale s in
      ((length stale <= 5)%nat ->
       lr_steps s' = lr_steps s /\ scheduler_counter s' = Z.of_nat (length stale))
      /\ (length stale = 6%nat ->
          lr_steps s' = (epoch + 5)%nat :: lr_steps s /\ scheduler_counter s' = 0)).
Proof.
  split.
  - intros epoch l v s s'. subst s'. split; [|split].
    + intros Hbest. rewrite (epoch_body_best _ _ _ _ Hbest). split; reflexivity.
    + intros Hstale Hc. rewrite (epoch_body_not_best _ _ _ _ Hstale).
      apply Z.ltb_lt in Hc. simpl. rewrite Hc. split; reflexivity.
    + intros Hstale Hc. rewrite (epoch_body_not_best _ _ _ _ Hstale).
      apply Z.ltb_ge in Hc. simpl. rewrite Hc. split; reflexivity.
  - intros epoch stale s Hc Hst s'. subst s'. split.
    + intros Hlen.
      destruct (run_epochs_stale stale epoch s Hst) as (I1 & I2 & _); [lia|].
      rewrite I1, I2, Hc. split; [reflexivity|lia].
    + intros Hlen.
      destruct (exists_last (l := stale)) as (first & [l v] & ->).
      { intros ->. discriminate. }
      rewrite length_app in Hlen. simpl in Hlen.
      apply Forall_app in Hst as [Hfirst Hlast].
      inversion Hlast as [|? ? Hv _]; subst. simpl in Hv.
      destruct (run_epochs_stale first epoch s Hfirst) as (I1 & I2 & I3); [lia|].
      rewrite run_epochs_app. simpl.
      rewrite <- I3 in Hv.
      rewrite (epoch_body_not_best _ _ _ _ Hv), I1, I2, Hc. simpl.
      replace (Z.of_nat (length first)) with 5 by lia. simpl.
      replace (length first) with 5%nat by lia. split; reflexivity.
Qed.

End TrainLoop.

(** Six epochs whose validation loss falls twice and then only grows. *)
Lemma checkpoint_iff_strict_improvement_witness :
  let dec := [(Examples.fin 9, Examples.fin 5); (Examples.fin 8, Examples.fin 3)] in
  let inc := [(Examples.fin 7, Examples.fin 4); (Examples.fin 6, Examples.fin 6);
              (Examples.fin 5, Examples.fin 7); (Examples.fin 4, Examples.fin 8)] in
  length (dec ++ inc) = max_epoch Examples.cfg
  /\ Props.decreasing_from Train.PosInf (map snd dec)
  /\ Props.increasing_from (List.last (map snd dec) Train.PosInf) (map snd inc)
  /\ length (Train.saved (Train.train_loop Examples.cfg (dec ++ inc) Train.initial)) = 2%nat.
Proof.
  intros dec inc.
  assert (H1 : length (dec ++ inc) = max_epoch Examples.cfg) by reflexivity.
  assert (H2 : Props.decreasing_from Train.PosInf (map snd dec)).
  { simpl. repeat split. }
  assert (H3 : Props.increasing_from (List.last (map snd dec) Train.PosInf) (map snd inc)).
  { simpl. repeat split. }
  repeat (split; [assumption|]).
  exact (proj2 (proj2 (checkpoint_iff_strict_improvement Examples.cfg) dec inc H1 H2 H3)).
Defined.

(** One improving epoch, then six without improvement, starting at epoch 1. *)
Lemma lr_decay_at_sixth_stale_epoch_witness :
  let s := Train.epoch_body Examples.cfg 0 (Examples.fin 1) (Examples.fin 1) Train.initial in
  let stale := repeat (Examples.fin 2, Examples.fin 2) 6 in
  Train.scheduler_counter s = 0
  /\ Forall (fun lv => Train.lt lv.2 (Train.min_loss s) = false) stale
  /\ Train.lr_steps (Train.run_epochs Examples.cfg 1 stale s) = [6%nat].
Proof.
  intros s stale.
  assert (H1 : Train.scheduler_counter s = 0) by reflexivity.
  assert (H2 : Forall (fun lv => Train.lt lv.2 (Train.min_loss s) = false) stale).
  { repeat constructor. }
  repeat (split; [assumption|]).
  exact (proj1 (proj2 (proj2 (lr_decay_at_sixth_stale_epoch Examples.cfg) 1%nat stale s H1 H2)
                 eq_refl)).
Defined.

(** C6, as the claim has it, fails: after one improving epoch and five
    consecutive epochs without improvement the schedule has not been
    stepped, and the counter stands at 5. *)
Lemma no_lr_decay_after_five_stale_epochs :
  let means := [(Examples.fin 1, Examples.fin 1); (Examples.fin 2, Examples.fin 2);
                (Examples.fin 2, Examples.fin 2); (Examples.fin 2, Examples.fin 2);
                (Examples.fin 2, Examples.fin 2); (Examples.fin 2, Examples.fin 2)] in
  let s' := Train.train_loop Examples.cfg means Train.initial in
  map Train.ck_epoch (Train.saved s') = [0%nat]
  /\ Train.lr_steps s' = []
  /\ Train.scheduler_counter s' = 5.
Proof. vm_compute. repeat split. Qed.

(* ===================================================================== *)
(** ** Paths: the name of the output raster *)
(* ===================================================================== *)

Section Paths.

Import Py.

Lemma append_cons (x : ascii) (a b : string) :
  (String x a ++ b = String x (a ++ b))%string.
Proof. reflexivity. Qed.

Lemma append_assoc (a b c : string) : ((a ++ b) ++ c = a ++ (b ++ c))%string.
Proof.
  induction a as [|x a IH]; [reflexivity|].
  rewrite !append_cons, IH. reflexivity.
Qed.

Lemma length_append (a b : string) :
  String.length (a ++ b) = (String.length a + String.length b)%nat.
Proof.
  induction a as [|x a IH]; [reflexivity|].
  rewrite append_cons. simpl. by rewrite IH.
Qed.

Lemma take_str_append (a b : string) : take_str (String.length a) (a ++ b) = a.
Proof.
  induction a as [|x a IH]; [by destruct b|].
  rewrite append_cons. simpl. by rewrite IH.
Qed.

(** [(a + ext)[:-n]] is [a] when [ext] has [n] characters. *)
Lemma drop_last_append (n : nat) (a ext : string) :
  String.length ext = n -> drop_last n (a ++ ext) = a.
Proof.
  intros <-. unfold drop_last. rewrite length_append.
  replace (String.length a + String.length ext - String.length ext)%nat
    with (String.length a) by lia.
  apply take_str_append.
Qed.

Lemma split_slash_nonempty (s : string) : split_slash s <> [].
Proof.
  destruct s as [|c r]; simpl; [discriminate|].
  destruct (Ascii.eqb c "/"); [discriminate|].
  destruct (split_slash r); discriminate.
Qed.

(** [(a + '/' + b).split('/')] is [a.split('/') + b.split('/')]. *)
Lemma split_slash_append (a b : string) :
  split_slash (a ++ String "/" b) = split_slash a ++ split_slash b.
Proof.
  induction a as [|c a IH]; [reflexivity|].
  rewrite append_cons. simpl.
  destruct (Ascii.eqb c "/"); rewrite IH; [reflexivity|].
  pose proof (split_slash_nonempty a) as Hne.
  destruct (split_slash a) as [|h t]; [congruence|reflexivity].
Qed.

Lemma split_slash_no_slash (s : string) : Props.no_slash s = true -> split_slash s = [s].
Proof.
  induction s as [|c s IH]; simpl; [reflexivity|].
  intros H. apply andb_true_iff in H as [Hc Hs]. apply negb_true_iff in Hc.
  rewrite Hc, (IH Hs). reflexivity.
Qed.

(** The last piece of [dir/stem] is [stem]. *)
Lemma last_item_stem (dir stem d : string) :
  Props.no_slash stem = true ->
  last_item (split_slash (dir ++ String "/" stem)) d = stem.
Proof.
  intros H. unfold last_item.
  rewrite split_slash_append, (split_slash_no_slash _ H). apply last_last.
Qed.

(** For an input [dir/stem.ext] with a three-letter extension the output
    raster is [stem_pred.tif] in the inference output directory. *)
Lemma raster_name_stem (self : Config) (dir stem ext4 : string) :
  Props.no_slash stem = true -> String.length ext4 = 4%nat ->
  Predict.raster_name self (dir ++ "/" ++ stem ++ ext4)
  = path_join (inference_output_dir self) (stem ++ "_pred.tif").
Proof.
  intros Hs He. unfold Predict.raster_name.
  change (dir ++ "/" ++ stem ++ ext4)%string with (dir ++ String "/" (stem ++ ext4))%string.
  replace (dir ++ String "/" (stem ++ ext4))%string
    with ((dir ++ String "/" stem) ++ ext4)%string.
  - rewrite (drop_last_append 4 _ _ He), (last_item_stem _ _ _ Hs). reflexivity.
  - rewrite append_assoc. reflexivity.
Qed.

(** The same for an input [stem.ext] without directory part. *)
Lemma raster_name_stem_bare (self : Config) (stem ext4 : string) :
  Props.no_slash stem = true -> String.length ext4 = 4%nat ->
  Predict.raster_name self (stem ++ ext4)
  = path_join (inference_output_dir self) (stem ++ "_pred.tif").
Proof.
  intros Hs He. unfold Predict.raster_name, last_item.
  rewrite (drop_last_append 4 _ _ He), (split_slash_no_slash _ Hs). reflexivity.
Qed.

End Paths.

(* ===================================================================== *)
(** ** Predict: one input file *)
(* ===================================================================== *)

Section PredictOne.

Import Predict.

Variable ext : externals.
Variable self : Config.

(** When the output raster exists, [_predict] logs and returns. *)
Lemma _predict_skip (filename : string) (w : world) (f : file) :
  fs w !! raster_name self filename = Some f ->
  _predict ext self filename w
  = (Ok tt, {| fs := fs w;
               trace := trace w ++ [Log (LogFile filename);
                                    Log (AlreadyPredicted (raster_name self filename))] |}).
Proof.
  intros H. unfold _predict, bind, logging_info, emit, isfile. simpl.
  rewrite H. rewrite bool_decide_eq_true_2 by eauto. simpl.
  rewrite <- app_assoc. reflexivity.
Qed.

(** C3, as the code has it.  An input whose output raster, under the name
    that [_predict] computes for it, is already there when [_predict]
    starts is skipped: the call returns normally, the file system is what
    it was, so the existing output is untouched, and the only events are
    the two log lines, the second one reporting the skip: no raster is
    opened, no inference is run, nothing is written.  The name is the last
    path component of the input without its last four characters, followed
    by [_pred.tif], in the inference output directory: [stem_pred.tif] for
    an input [dir/stem.ext] or [stem.ext] whose extension has four
    characters with its dot. *)
Theorem predict_skips_existing_output (filename : string) (w : world) (f : file) :
  fs w !! raster_name self filename = Some f ->
  _predict ext self filename w
  = (Ok tt, {| fs := fs w;
               trace := trace w ++ [Log (LogFile filename);
                                    Log (AlreadyPredicted (raster_name self filename))] |})
  /\ forall dir stem ext4,
       Props.no_slash stem = true ->
       String.length ext4 = 4%nat ->
       filename = (dir ++ "/" ++ stem ++ ext4)%string \/ filename = (stem ++ ext4)%string ->
       raster_name self filename
       = Py.path_join (inference_output_dir self) (stem ++ "_pred.tif").
Proof.
  intros Hf. split; [exact (_predict_skip _ w f Hf)|].
  intros dir stem ext4 Hs He [->| ->].
  - exact (raster_name_stem self dir stem ext4 Hs He).
  - exact (raster_name_stem_bare self stem ext4 Hs He).
Qed.

(** C1, as the code has it.  [_predict] builds the slicer with
    [tile_size] in both directions as the tile size and with the
    configured [overlap] itself, in both directions, as the step between
    tile origins; the run is the same when the slicing and inference
    refuse every other pair of arguments.  Adjacent tiles therefore share
    [tile_size - overlap] pixels. *)
Theorem slicer_step_is_overlap (filename : string) (w : world) :
  slicer_tile_size self = (tile_size self, tile_size self)
  /\ slicer_tile_step self = (overlap self, overlap self)
  /\ _predict ext self filename w
     = _predict (Props.segment_only_at ext (tile_size self, tile_size self)
                   (overlap self, overlap self)) self filename w
  /\ (slicer_tile_size self).1 - (slicer_tile_step self).1 = tile_size self - overlap self.
Proof.
  repeat split.
  unfold _predict, Props.segment_only_at, slicer_tile_size, slicer_tile_step. simpl.
  rewrite bool_decide_eq_true_2 by (split; reflexivity). reflexivity.
Qed.

End PredictOne.

(** The skip on the world that already holds [out/b_pred.tif]. *)
Lemma predict_skips_existing_output_witness :
  Predict.fs Examples.w1 !! Predict.raster_name Examples.cfg "in/b.tif" = Some Predict.Blob
  /\ Predict.trace (Predict._predict Examples.ext Examples.cfg "in/b.tif" Examples.w1).2
     = [Predict.Log (Predict.LogFile "in/b.tif");
        Predict.Log (Predict.AlreadyPredicted "out/b_pred.tif")]
  /\ Predict.raster_name Examples.cfg "in/b.tif" = "out/b_pred.tif"%string.
Proof.
  assert (H : Predict.fs Examples.w1 !! Predict.raster_name Examples.cfg "in/b.tif"
              = Some Predict.Blob) by (vm_compute; reflexivity).
  split; [exact H|]. split.
  - exact (f_equal (fun r => Predict.trace r.2)
             (proj1 (predict_skips_existing_output Examples.ext Examples.cfg
                       "in/b.tif" Examples.w1 Predict.Blob H))).
  - exact (proj2 (predict_skips_existing_output Examples.ext Examples.cfg
                    "in/b.tif" Examples.w1 Predict.Blob H)
             "in" "b" ".tif" eq_refl eq_refl (or_introl eq_refl)).
Defined.

(** C3, as the claim has it, fails.  The stem of [in/b.tiff] is [b] and
    [out/b_pred.tif] is on disk, but [_predict] looks for
    [out/b._pred.tif], which is not: the raster is read, the inference is
    run and [out/b._pred.tif] is written. *)
Lemma predict_repeats_input_with_long_extension :
  is_Some (Predict.fs Examples.w2 !! "out/b_pred.tif"%string)
  /\ Predict.raster_name Examples.cfg "in/b.tiff" = "out/b._pred.tif"%string
  /\ (Predict._predict Examples.ext Examples.cfg "in/b.tiff" Examples.w2).1 = Predict.Ok tt
  /\ Predict.trace (Predict._predict Examples.ext Examples.cfg "in/b.tiff" Examples.w2).2
     = [Predict.Log (Predict.LogFile "in/b.tiff");
        Predict.OpenRaster "in/b.tiff";
        Predict.Log (Predict.TensorShape 2 2 1);
        Predict.Inference "in/b.tiff";
        Predict.OpenRaster "in/b.tiff";
        Predict.WriteRaster "out/b._pred.tif";
        Predict.Log (Predict.SavedFilename "out/b._pred.tif")]
  /\ is_Some (Predict.fs (Predict._predict Examples.ext Examples.cfg "in/b.tiff"
                            Examples.w2).2 !! "out/b._pred.tif"%string).
Proof.
  split; [vm_compute; eauto|].
  split; [vm_compute; reflexivity|].
  split; [vm_compute; reflexivity|].
  split; [vm_compute; reflexivity|].
  vm_compute. eauto.
Qed.

(** C1, as the claim has it, fails: with tiles of 256 pixels and an
    overlap of 64 the step given to the slicer is 64, not 256 - 64 = 192. *)
Lemma slicer_step_not_size_minus_overlap :
  Predict.slicer_tile_step Examples.cfg = (64, 64)
  /\ Predict.slicer_tile_step Examples.cfg
     <> (tile_size Examples.cfg - overlap Examples.cfg,
         tile_size Examples.cfg - overlap Examples.cfg).
Proof. split; [reflexivity|]. vm_compute. discriminate. Qed.

(* ===================================================================== *)
(** ** Predict: clipping and normalization *)
(* ===================================================================== *)

Section Clipping.

Lemma clipQ_inside (lo hi x : Q) : (lo <= x)%Q -> (x <= hi)%Q -> (Np.clipQ lo hi x == x)%Q.
Proof.
  intros Hlo Hhi. unfold Np.clipQ, Np.Qmaxb, Np.Qminb.
  destruct (Qle_bool x lo) eqn:E1.
  - apply Qle_bool_iff in E1. assert (Hx : (x == lo)%Q) by (apply Qle_antisym; assumption).
    destruct (Qle_bool lo hi) eqn:E2.
    + symmetry. exact Hx.
    + exfalso. assert (H : Qle_bool lo hi = true).
      { apply Qle_bool_iff. rewrite <- Hx. exact Hhi. }
      congruence.
  - destruct (Qle_bool x hi) eqn:E2; [reflexivity|].
    exfalso. assert (H : Qle_bool x hi = true) by (apply Qle_bool_iff; exact Hhi).
    congruence.
Qed.

(** In [_predict] the clip comes after the division, so it sees values
    between 0 and 1: with a value range that starts at 0 or below and ends
    at 1 or above, it leaves every non-negative pixel as it is. *)
Lemma predict_clip_is_idle (self : Config) (v : Z) :
  data_min self <= 0 -> 1 <= data_max self -> 0 <= v <= 32767 ->
  (Predict._predict_pixel self v == inject_Z v / inject_Z 32767)%Q.
Proof.
  intros Hmin Hmax Hv. unfold Predict._predict_pixel, Preprocess.modify_pixel_extremity_float.
  assert (E : Np.astype_int16 v = v).
  { unfold Np.astype_int16. rewrite Z.mod_small; lia. }
  rewrite E. simpl CloudDataset.iinfo_max.
  assert (H0 : (0 <= inject_Z v / inject_Z 32767)%Q).
  { apply Qle_shift_div_l; [reflexivity|]. rewrite Qmult_0_l.
    unfold Qle. simpl. lia. }
  assert (H1 : (inject_Z v / inject_Z 32767 <= 1)%Q).
  { apply Qle_shift_div_r; [reflexivity|]. rewrite Qmult_1_l.
    unfold Qle. simpl. lia. }
  apply clipQ_inside.
  - apply Qle_trans with 0%Q; [|exact H0]. unfold Qle. simpl. lia.
  - apply Qle_trans with 1%Q; [exact H1|]. unfold Qle. simpl. lia.
Qed.

(** C2.  [_predict] divides by the int16 maximum first and clips to
    [data_min, data_max] afterwards, while the training tiles are clipped
    first ([_preprocess]) and divided afterwards ([open_image]).  With the
    value range [0, 10000], the raw pixel 20000 reaches the model as
    20000/32767 at inference and as 10000/32767 in training. *)
Theorem predict_clips_after_normalizing :
  (forall (self : Config) (v : Z),
      Predict._predict_pixel self v
      = Np.clipQ (inject_Z (data_min self)) (inject_Z (data_max self))
          (inject_Z (Np.astype_int16 v) / inject_Z 32767)%Q)
  /\ (forall (self : Config) (v : Z),
      Preprocess.training_pixel self v
      = (inject_Z (Np.clipZ (data_min self) (data_max self) (Np.astype_int16 v))
         / inject_Z 32767)%Q)
  /\ Predict._predict_pixel Examples.cfg 20000 = (20000 # 32767)%Q
  /\ Preprocess.training_pixel Examples.cfg 20000 = (10000 # 32767)%Q
  /\ ~ (Predict._predict_pixel Examples.cfg 20000
        == Preprocess.training_pixel Examples.cfg 20000)%Q.
Proof.
  split; [reflexivity|]. split; [reflexivity|].
  split; [vm_compute; reflexivity|]. split; [vm_compute; reflexivity|].
  vm_compute. discriminate.
Qed.

End Clipping.

(* ===================================================================== *)
(** ** Predict: a batch of input files *)
(* ===================================================================== *)

Section PredictBatch.

Import Predict.

Variable ext : externals.
Variable self : Config.

Lemma predict_files_app (pre post : list string) (w : world) :
  predict_files ext self (pre ++ post) w
  = match predict_files ext self pre w with
    | (Ok _, w1) => predict_files ext self post w1
    | (Raised e, w1) => (Raised e, w1)
    end.
Proof.
  revert w. induction pre as [|r pre IH]; intros w; cbn [predict_files app].
  - reflexivity.
  - unfold bind. destruct (_predict ext self r w) as [[[]|e] w1]; [apply IH|reflexivity].
Qed.

(** Whatever happens next, [_predict] first logs the name of its file. *)
Lemma _predict_logs_file (r : string) (w w' : world) (res : result unit) :
  _predict ext self r w = (res, w') ->
  exists rest, trace w' = trace w ++ Log (LogFile r) :: rest.
Proof.
  unfold _predict, arr_to_tif, bind, logging_info, emit, isfile, open_raster,
    write_raster, raise. simpl.
  intros H. repeat case_match; simplify_eq; simpl in *; simplify_eq; simpl;
    rewrite <- ?app_assoc; simpl; eauto.
Qed.

(** A call that raises has written nothing. *)
Lemma _predict_raised_fs (r : string) (w w' : world) (e : exn) :
  _predict ext self r w = (Raised e, w') -> fs w' = fs w.
Proof.
  unfold _predict, arr_to_tif, bind, logging_info, emit, isfile, open_raster,
    write_raster, raise. simpl.
  intros H. repeat case_match; simplify_eq; simpl in *; simplify_eq; reflexivity.
Qed.

(** C4, as the code has it.  The loop over the input files has no handler:
    when [_predict] raises on a file, the exception leaves the loop with
    the world as that call left it, so the files after it are not
    processed; the failed call has written nothing, and the name of its
    file is in the log because [_predict] logs it before it starts. *)
Theorem predict_files_stops_at_failure (pre post : list string) (r : string)
    (w w1 w2 : world) (e : exn) :
  predict_files ext self pre w = (Ok tt, w1) ->
  _predict ext self r w1 = (Raised e, w2) ->
  predict_files ext self (pre ++ r :: post) w = (Raised e, w2)
  /\ fs w2 = fs w1
  /\ Log (LogFile r) ∈ trace w2.
Proof.
  intros Hpre Hr. split; [|split].
  - rewrite predict_files_app, Hpre. simpl. unfold bind. rewrite Hr. reflexivity.
  - exact (_predict_raised_fs _ _ _ _ Hr).
  - destruct (_predict_logs_file _ _ _ _ Hr) as [rest ->].
    apply elem_of_app. right. apply list_elem_of_here.
Qed.

End PredictBatch.

(** The batch [in/a.tif], [in/b.tif] where the first file is not a raster. *)
Lemma predict_files_stops_at_failure_witness :
  Predict.predict_files Examples.ext Examples.cfg [] Examples.w0 = (Predict.Ok tt, Examples.w0)
  /\ Predict._predict Examples.ext Examples.cfg "in/a.tif" Examples.w0
     = (Predict.Raised (Predict.RasterioIOError "in/a.tif"),
        {| Predict.fs := Predict.fs Examples.w0;
           Predict.trace := [Predict.Log (Predict.LogFile "in/a.tif")] |})
  /\ (Predict.predict_files Examples.ext Examples.cfg ["in/a.tif"; "in/b.tif"]%string
        Examples.w0).1
     = Predict.Raised (Predict.RasterioIOError "in/a.tif").
Proof.
  assert (H1 : Predict.predict_files Examples.ext Examples.cfg [] Examples.w0
               = (Predict.Ok tt, Examples.w0)) by reflexivity.
  assert (H2 : Predict._predict Examples.ext Examples.cfg "in/a.tif" Examples.w0
               = (Predict.Raised (Predict.RasterioIOError "in/a.tif"),
                  {| Predict.fs := Predict.fs Examples.w0;
                     Predict.trace := [Predict.Log (Predict.LogFile "in/a.tif")] |}))
    by (vm_compute; reflexivity).
  repeat (split; [assumption|]).
  exact (f_equal fst
           (proj1 (predict_files_stops_at_failure Examples.ext Examples.cfg
                     [] ["in/b.tif"%string] "in/a.tif" _ _ _ _ H1 H2))).
Defined.

(** C4, as the claim has it, fails.  [in/b.tif] alone is predicted and
    written; in the batch after [in/a.tif], which is not a raster, the run
    ends with the exception of [in/a.tif], [in/b.tif] is never looked at
    and its output is not there. *)
Lemma predict_aborts_on_first_failure :
  (Predict.predict_files Examples.ext Examples.cfg ["in/b.tif"%string] Examples.w0).1
  = Predict.Ok tt
  /\ is_Some (Predict.fs (Predict.predict_files Examples.ext Examples.cfg
                            ["in/b.tif"%string] Examples.w0).2 !! "out/b_pred.tif"%string)
  /\ (Predict.predict Examples.ext Examples.cfg Examples.w0).1
     = Predict.Raised (Predict.RasterioIOError "in/a.tif")
  /\ Predict.trace (Predict.predict Examples.ext Examples.cfg Examples.w0).2
     = [Predict.Log Predict.StartingPrediction;
        Predict.Log (Predict.Loading "models/new.pt");
        Predict.Log Predict.LoadedModel;
        Predict.LoadModel "models/new.pt";
        Predict.Log (Predict.FilesToPredict 2);
        Predict.Log (Predict.LogFile "in/a.tif")]
  /\ Predict.fs (Predict.predict Examples.ext Examples.cfg Examples.w0).2
       !! "out/b_pred.tif"%string = None.
Proof.
  split; [vm_compute; reflexivity|].
  split; [vm_compute; eauto|].
  split; [vm_compute; reflexivity|].
  split; vm_compute; reflexivity.
Qed.

(* ===================================================================== *)
(** ** Predict: the choice of the model file *)
(* ===================================================================== *)

Section SelectModel.

Import Predict.

(** [max] with a key keeps the first element of largest key. *)
Lemma max_from_first_largest {A} (key : A -> Z) (l : list A) (best : A) :
  (forall g, g ∈ best :: l -> key g <= key (Py.max_from key best l))
  /\ exists pre post, best :: l = pre ++ Py.max_from key best l :: post
                      /\ Forall (fun g => key g < key (Py.max_from key best l)) pre.
Proof.
  revert best. induction l as [|x l IH]; intros best; simpl.
  - split.
    + intros g Hg. apply list_elem_of_singleton in Hg as ->. lia.
    + exists [], []. split; [reflexivity|constructor].
  - destruct (key best <? key x) eqn:E.
    + apply Z.ltb_lt in E. destruct (IH x) as [Hmax (pre & post & Heq & Hpre)].
      split.
      * intros g Hg. apply elem_of_cons in Hg as [->|Hg]; [|by apply Hmax].
        specialize (Hmax x (list_elem_of_here _ _)). lia.
      * exists (best :: pre), post. split; [simpl; by rewrite Heq|].
        constructor; [|exact Hpre].
        specialize (Hmax x (list_elem_of_here _ _)). lia.
    + apply Z.ltb_ge in E. destruct (IH best) as [Hmax (pre & post & Heq & Hpre)].
      pose proof (Hmax best (list_elem_of_here _ _)) as Hbest.
      split.
      * intros g Hg. apply elem_of_cons in Hg as [->|Hg]; [exact Hbest|].
        apply elem_of_cons in Hg as [->|Hg]; [lia|].
        apply Hmax. by apply list_elem_of_further.
      * destruct pre as [|p pre]; simpl in Heq.
        -- injection Heq as Hb Hl. exists [], (x :: l).
           split; [simpl; congruence|constructor].
        -- injection Heq as Hb Hl. subst p. exists (best :: x :: pre), post.
           split; [simpl; congruence|].
           inversion Hpre as [|? ? Hp Hrest]; subst.
           constructor; [exact Hp|]. constructor; [lia|exact Hrest].
Qed.

Variable ext : externals.
Variable self : Config.

(** C7, as the code has it.  When no model file is designated and the model
    directory holds [*.pt] files, [predict] takes the one whose
    [os.path.getctime] is largest, the first of them in the order of
    [glob] when several share it, and leaves the world as it is. *)
Theorem select_model_latest_ctime (w : world) :
  model_filename self = None ->
  let models_list := glob ext (Py.path_join (model_dir self) "*.pt") in
  models_list <> [] ->
  exists f, select_model ext self w = (Ok f, w)
            /\ (forall g, g ∈ models_list -> getctime ext g <= getctime ext f)
            /\ exists pre post, models_list = pre ++ f :: post
                                /\ Forall (fun g => getctime ext g < getctime ext f) pre.
Proof.
  intros Hnone models_list Hne. unfold select_model. rewrite Hnone.
  fold models_list. destruct models_list as [|x l]; [congruence|]. simpl.
  exists (Py.max_from (getctime ext) x l). split; [reflexivity|].
  exact (max_from_first_largest (getctime ext) l x).
Qed.

End SelectModel.

(** The model directory with [old.pt] and [new.pt]. *)
Lemma select_model_latest_ctime_witness :
  model_filename Examples.cfg = None
  /\ Predict.glob Examples.ext (Py.path_join (model_dir Examples.cfg) "*.pt") <> []
  /\ exists f, Predict.select_model Examples.ext Examples.cfg Examples.w0
               = (Predict.Ok f, Examples.w0)
               /\ forall g, g ∈ Predict.glob Examples.ext
                                  (Py.path_join (model_dir Examples.cfg) "*.pt") ->
                            Predict.getctime Examples.ext g <= Predict.getctime Examples.ext f.
Proof.
  assert (H1 : model_filename Examples.cfg = None) by reflexivity.
  assert (H2 : Predict.glob Examples.ext (Py.path_join (model_dir Examples.cfg) "*.pt") <> [])
    by (vm_compute; discriminate).
  repeat (split; [assumption|]).
  destruct (select_model_latest_ctime Examples.ext Examples.cfg Examples.w0 H1 H2)
    as (f & Hf & Hmax & _).
  exists f. split; [exact Hf|exact Hmax].
Defined.

(** C7, as the claim has it, fails: [old.pt] was modified last, and
    [predict] loads [new.pt], whose [getctime] is larger. *)
Lemma select_model_not_latest_mtime :
  (Predict.select_model Examples.ext Examples.cfg Examples.w0).1
  = Predict.Ok "models/new.pt"%string
  /\ "models/old.pt"%string
     ∈ Predict.glob Examples.ext (Py.path_join (model_dir Examples.cfg) "*.pt")
  /\ Examples.getmtime "models/new.pt" < Examples.getmtime "models/old.pt".
Proof.
  split; [vm_compute; reflexivity|].
  split; [vm_compute; apply list_elem_of_here|].
  vm_compute. reflexivity.
Qed.

(* ===================================================================== *)
(** ** Predict: writing the output raster *)
(* ===================================================================== *)

Section ArrToTif.

Import Predict.

Lemma zip_row_lookup {A} (f : A -> A -> A) (a b c : list A) :
  zip_row f a b = Some c ->
  forall j x y, a !! j = Some x -> b !! j = Some y -> c !! j = Some (f x y).
Proof.
  revert b c. induction a as [|x0 a IH]; intros [|y0 b] c; simpl; try discriminate.
  destruct (zip_row f a b) as [r|] eqn:E; simpl; [|discriminate].
  intros H. injection H as <-. intros [|j] x y Hx Hy; simpl in *.
  - congruence.
  - exact (IH _ _ E j x y Hx Hy).
Qed.

Lemma zip_row_defined {A} (f : A -> A -> A) (a b : list A) :
  length a = length b -> exists c, zip_row f a b = Some c /\ length c = length a.
Proof.
  revert b. induction a as [|x a IH]; intros [|y b] H; simpl in H; try discriminate.
  - exists []. split; reflexivity.
  - destruct (IH b) as (c & Hc & Hl); [lia|].
    exists (f x y :: c). simpl. rewrite Hc. simpl. split; [reflexivity|lia].
Qed.

Lemma zip_arr2_get2 {A} (f : A -> A -> A) (a b c : Np.arr2 A) :
  zip_arr2 f a b = Some c ->
  forall i j x y, Props.get2 a i j = Some x -> Props.get2 b i j = Some y ->
                  Props.get2 c i j = Some (f x y).
Proof.
  revert b c. induction a as [|r0 a IH]; intros [|s0 b] c; simpl; try discriminate.
  destruct (zip_row f r0 s0) as [r|] eqn:E1; simpl; [|discriminate].
  destruct (zip_arr2 f a b) as [rs|] eqn:E2; simpl; [|discriminate].
  intros H. injection H as <-.
  intros [|i] j x y Hx Hy; unfold Props.get2 in *; simpl in *.
  - exact (zip_row_lookup _ _ _ _ E1 j x y Hx Hy).
  - exact (IH _ _ E2 i j x y Hx Hy).
Qed.

Lemma zip_arr2_defined {A} (f : A -> A -> A) (a b : Np.arr2 A) :
  Props.same_shape a b -> exists c, zip_arr2 f a b = Some c /\ Props.same_shape c a.
Proof.
  induction 1 as [|r s a b Hrs _ (c & Hc & Hs)].
  - exists []. split; [reflexivity|constructor].
  - destruct (zip_row_defined f r s Hrs) as (r' & Hr' & Hl).
    exists (r' :: c). simpl. rewrite Hr'. simpl. rewrite Hc. simpl.
    split; [reflexivity|]. constructor; assumption.
Qed.

Lemma lookup_map {A B} (g : A -> B) (l : list A) (j : nat) :
  map g l !! j = g <$> l !! j.
Proof. exact (list_lookup_fmap g l j). Qed.

Lemma get2_map2d {A B} (g : A -> B) (a : Np.arr2 A) (i j : nat) :
  Props.get2 (Np.map2d g a) i j = g <$> Props.get2 a i j.
Proof.
  unfold Props.get2, Np.map2d. rewrite lookup_map.
  destruct (a !! i) as [r|]; simpl; [|reflexivity].
  apply lookup_map.
Qed.

Lemma same_shape_map2d_l {A B C} (g : A -> C) (a : Np.arr2 A) (b : Np.arr2 B) :
  Props.same_shape a b <-> Props.same_shape (Np.map2d g a) b.
Proof.
  unfold Props.same_shape, Np.map2d. revert b.
  induction a as [|r a IH]; intros [|s b]; simpl; split; intros H;
    inversion H; subst; constructor; try (by apply IH);
    rewrite ?length_map in *; assumption.
Qed.

Lemma same_shape_map2d_r {A B C} (h : B -> C) (a : Np.arr2 A) (b : Np.arr2 B) :
  Props.same_shape a b <-> Props.same_shape a (Np.map2d h b).
Proof.
  unfold Props.same_shape, Np.map2d. revert b.
  induction a as [|r a IH]; intros [|s b]; simpl; split; intros H;
    inversion H; subst; constructor; try (by apply IH);
    rewrite ?length_map in *; assumption.
Qed.

Lemma all2_get2 {A} (P : A -> Prop) (a : Np.arr2 A) (i j : nat) (x : A) :
  Props.all2 P a -> Props.get2 a i j = Some x -> P x.
Proof.
  unfold Props.all2, Props.get2. intros Ha Hx.
  destruct (a !! i) as [r|] eqn:E; [|discriminate].
  pose proof (proj1 (Forall_lookup _ _) Ha i r E) as Hr.
  exact (proj1 (Forall_lookup _ _) Hr j x Hx).
Qed.

Lemma astype_int16_id (v : Z) : -32768 <= v <= 32767 -> Np.astype_int16 v = v.
Proof. intros H. unfold Np.astype_int16. rewrite Z.mod_small; lia. Qed.

(** The output profile is the source's but for 'count' and 'dtype'. *)
Lemma out_meta_lookup (meta : gmap string pyval) :
  out_meta meta !! "count"%string = Some (VInt 1)
  /\ out_meta meta !! "dtype"%string = Some (VStr "int16")
  /\ forall k, k <> "count"%string -> k <> "dtype"%string -> out_meta meta !! k = meta !! k.
Proof.
  unfold out_meta. split; [|split].
  - rewrite lookup_insert_ne by discriminate. apply lookup_insert_eq.
  - apply lookup_insert_eq.
  - intros k H1 H2. rewrite !lookup_insert_ne by congruence. reflexivity.
Qed.

Variable ext : externals.

(** C8. [arr_to_tif] writes one band in which every pixel whose value in
    the mask band of the source is 0 holds the no-data value and every
    other pixel holds the value of [segments]; the profile of the output is
    the source's with 'count' 1 and 'dtype' int16.  The no-data value is an
    int16 outside 1..255, as the -9999 that [_predict] passes is; mask
    values are those of a uint8 band and [segments] fits int16. *)
Theorem arr_to_tif_marks_nodata (raster_f out_tif : string) (src : raster)
    (segments : Np.arr2 Z) (ndval : Z) (w : world) :
  fs w !! raster_f = Some (Raster src) ->
  Props.same_shape segments (read_masks ext src) ->
  Props.all2 (fun m => 0 <= m <= 255) (read_masks ext src) ->
  Props.all2 (fun s => -32768 <= s <= 32767) segments ->
  -32768 <= ndval <= 32767 ->
  ~ (1 <= ndval <= 255) ->
  exists out,
    arr_to_tif ext raster_f segments out_tif ndval w
    = (Ok tt,
       {| fs := <[ out_tif := Raster {| profile := out_meta (profile src);
                                        bands := [out] |} ]> (fs w);
          trace := trace w ++ [OpenRaster raster_f; WriteRaster out_tif] |})
    /\ Props.same_shape out segments
    /\ (forall i j m s,
           Props.get2 (read_masks ext src) i j = Some m ->
           Props.get2 segments i j = Some s ->
           Props.get2 out i j = Some (if m =? 0 then ndval else s))
    /\ out_meta (profile src) !! "count"%string = Some (VInt 1)
    /\ out_meta (profile src) !! "dtype"%string = Some (VStr "int16")
    /\ (forall k, k <> "count"%string -> k <> "dtype"%string ->
                  out_meta (profile src) !! k = profile src !! k).
Proof.
  intros Hsrc Hshape Hmask Hseg Hnd Hnot.
  set (nd := Np.map2d (fun m => if m =? 0 then Np.astype_int16 ndval else m)
               (Np.map2d Np.astype_int16 (read_masks ext src))).
  set (sg := Np.map2d Np.astype_int16 segments).
  destruct (zip_arr2_defined (fun s m => if m =? ndval then m else s) sg nd)
    as (out & Hout & Hs).
  { subst sg nd. apply same_shape_map2d_l. do 2 apply same_shape_map2d_r.
    exact Hshape. }
  exists out. split; [|split; [|split]].
  - unfold arr_to_tif, bind, open_raster, write_raster, apply_nodata. rewrite Hsrc.
    fold nd sg. rewrite Hout. simpl. rewrite <- app_assoc. reflexivity.
  - subst sg. apply same_shape_map2d_r in Hs. exact Hs.
  - intros i j m s Hm Hsg.
    pose proof (all2_get2 _ _ _ _ _ Hmask Hm) as Rm. simpl in Rm.
    pose proof (all2_get2 _ _ _ _ _ Hseg Hsg) as Rs. simpl in Rs.
    assert (Esg : Props.get2 sg i j = Some s).
    { subst sg. rewrite get2_map2d, Hsg. simpl. by rewrite astype_int16_id. }
    assert (End : Props.get2 nd i j = Some (if m =? 0 then ndval else m)).
    { subst nd. rewrite !get2_map2d, Hm. simpl.
      rewrite (astype_int16_id m) by lia. by rewrite (astype_int16_id ndval). }
    rewrite (zip_arr2_get2 _ _ _ _ Hout i j _ _ Esg End).
    destruct (m =? 0) eqn:E0.
    + by rewrite Z.eqb_refl.
    + apply Z.eqb_neq in E0.
      assert (En : (m =? ndval) = false) by (apply Z.eqb_neq; lia).
      by rewrite En.
  - apply out_meta_lookup.
Qed.

End ArrToTif.

(** The 2x2 source whose lower-left pixel has no data, predicted as class 1. *)
Lemma arr_to_tif_marks_nodata_witness :
  Predict.fs Examples.w0 !! "in/b.tif"%string = Some (Predict.Raster Examples.src)
  /\ Props.same_shape [[1; 1]; [1; 1]] (Predict.read_masks Examples.ext Examples.src)
  /\ Props.all2 (fun m => 0 <= m <= 255) (Predict.read_masks Examples.ext Examples.src)
  /\ Props.all2 (fun s => -32768 <= s <= 32767) [[1; 1]; [1; 1]]
  /\ -32768 <= -9999 <= 32767
  /\ ~ (1 <= -9999 <= 255)
  /\ exists out,
       Predict.fs (Predict.arr_to_tif Examples.ext "in/b.tif" [[1; 1]; [1; 1]]
                     "out/b_pred.tif" (-9999) Examples.w0).2 !! "out/b_pred.tif"%string
       = Some (Predict.Raster {| Predict.profile := Predict.out_meta (Predict.profile Examples.src);
                                 Predict.bands := [out] |})
       /\ Props.get2 out 1 0 = Some (-9999)
       /\ Props.get2 out 0 0 = Some 1.
Proof.
  assert (H1 : Predict.fs Examples.w0 !! "in/b.tif"%string = Some (Predict.Raster Examples.src))
    by (vm_compute; reflexivity).
  assert (H2 : Props.same_shape [[1; 1]; [1; 1]] (Predict.read_masks Examples.ext Examples.src))
    by (repeat constructor).
  assert (H3 : Props.all2 (fun m => 0 <= m <= 255)
                 (Predict.read_masks Examples.ext Examples.src))
    by (repeat constructor; lia).
  assert (H4 : Props.all2 (fun s => -32768 <= s <= 32767) [[1; 1]; [1; 1]])
    by (repeat constructor; lia).
  assert (H5 : -32768 <= -9999 <= 32767) by lia.
  assert (H6 : ~ (1 <= -9999 <= 255)) by lia.
  repeat (split; [assumption|]).
  destruct (arr_to_tif_marks_nodata Examples.ext "in/b.tif" "out/b_pred.tif" Examples.src
              [[1; 1]; [1; 1]] (-9999) Examples.w0 H1 H2 H3 H4 H5 H6)
    as (out & Hrun & _ & Hpix & _).
  exists out. split; [|split].
  - rewrite Hrun. simpl. apply lookup_insert_eq.
  - exact (Hpix 1%nat 0%nat 0 1 eq_refl eq_refl).
  - exact (Hpix 0%nat 0%nat 255 1 eq_refl eq_refl).
Defined.

(* ===================================================================== *)
(** ** Predict: what a call leaves behind *)
(* ===================================================================== *)

Section PredictEffects.

Import Predict.

Variable ext : externals.
Variable self : Config.

(** After a call that returns, the output raster is there. *)
Lemma _predict_ok_output (filename : string) (w w' : world) :
  _predict ext self filename w = (Ok tt, w') ->
  is_Some (fs w' !! raster_name self filename).
Proof.
  unfold _predict, arr_to_tif, bind, logging_info, emit, isfile, open_raster,
    write_raster, raise. simpl.
  destruct (fs w !! raster_name self filename) as [f|] eqn:Hout.
  - rewrite bool_decide_eq_true_2 by eauto. simpl.
    intros H. simplify_eq. simpl. rewrite Hout. eauto.
  - rewrite bool_decide_eq_false_2 by (intros [? ?]; discriminate). simpl.
    intros H. repeat case_match; simplify_eq; simpl in *; simplify_eq; simpl.
    rewrite lookup_insert_eq. eauto.
Qed.

(** X1. Whatever the outcome, [_predict] changes no file but the output
    raster of its input: the input itself, the other inputs and the other
    predictions are as they were. *)
Theorem _predict_touches_only_output (filename p : string) (w : world) :
  p <> raster_name self filename ->
  fs (_predict ext self filename w).2 !! p = fs w !! p.
Proof.
  intros Hp.
  unfold _predict, arr_to_tif, bind, logging_info, emit, isfile, open_raster,
    write_raster, raise. simpl.
  repeat case_match; simplify_eq; simpl in *; simplify_eq; simpl;
    rewrite ?lookup_insert_ne by congruence; reflexivity.
Qed.

(** X2. A call that returned is not repeated: the next call on the same
    input finds the output, logs the skip and leaves the file system as the
    first call left it. *)
Theorem _predict_rerun_is_skip (filename : string) (w w' : world) :
  _predict ext self filename w = (Ok tt, w') ->
  _predict ext self filename w'
  = (Ok tt, {| fs := fs w'; trace := trace w' ++ Props.skip_events self filename |}).
Proof.
  intros H. destruct (_predict_ok_output _ _ _ H) as [f Hf].
  exact (_predict_skip ext self filename w' f Hf).
Qed.

(** X3. Two inputs with the same stem, whatever their directories and
    extensions, share one output name: once the first has been predicted,
    the second is skipped and never predicted. *)
Theorem same_stem_second_input_skipped (d1 d2 stem e1 e2 : string) (w w' : world) :
  Props.no_slash stem = true ->
  String.length e1 = 4%nat -> String.length e2 = 4%nat ->
  _predict ext self (d1 ++ "/" ++ stem ++ e1) w = (Ok tt, w') ->
  Predict.raster_name self (d1 ++ "/" ++ stem ++ e1)
  = Predict.raster_name self (d2 ++ "/" ++ stem ++ e2)
  /\ _predict ext self (d2 ++ "/" ++ stem ++ e2) w'
     = (Ok tt, {| fs := fs w';
                  trace := trace w' ++ Props.skip_events self (d2 ++ "/" ++ stem ++ e2) |}).
Proof.
  intros Hs H1 H2 Hrun.
  assert (E : Predict.raster_name self (d1 ++ "/" ++ stem ++ e1)
              = Predict.raster_name self (d2 ++ "/" ++ stem ++ e2)).
  { rewrite !raster_name_stem by assumption. reflexivity. }
  split; [exact E|].
  destruct (_predict_ok_output _ _ _ Hrun) as [f Hf]. rewrite E in Hf.
  exact (_predict_skip ext self _ w' f Hf).
Qed.

(** X4. A batch whose outputs are all there already, as when a finished
    run is started again, returns normally, changes no file and logs the
    two skip lines of every input, in order. *)
Theorem predict_files_all_present (files : list string) (w : world) :
  Forall (fun f => is_Some (fs w !! raster_name self f)) files ->
  predict_files ext self files w
  = (Ok tt, {| fs := fs w;
               trace := trace w ++ concat (map (Props.skip_events self) files) |}).
Proof.
  revert w. induction files as [|f files IH]; intros w Hall.
  - simpl. rewrite app_nil_r. destruct w; reflexivity.
  - inversion Hall as [|? ? [x Hx] Hrest]; subst.
    cbn [predict_files]. unfold bind. rewrite (_predict_skip ext self f w x Hx).
    rewrite IH by exact Hrest. simpl. rewrite <- app_assoc. reflexivity.
Qed.

(** X5. Without a designated model file and without any [*.pt] file in the
    model directory, [predict] raises the ValueError of [max] on an empty
    list right after its first log line: no model is loaded, no input is
    looked at, no file is changed. *)
Theorem predict_without_model_raises (w : world) :
  model_filename self = None ->
  glob ext (Py.path_join (model_dir self) "*.pt") = [] ->
  predict ext self w
  = (Raised ValueError,
     {| fs := fs w; trace := trace w ++ [Log StartingPrediction] |}).
Proof.
  intros Hm Hg. unfold predict, select_model, bind, logging_info, emit, raise.
  rewrite Hm, Hg. reflexivity.
Qed.

End PredictEffects.

(** The input [in/b.tif] is left alone by its own prediction. *)
Lemma _predict_touches_only_output_witness :
  "in/b.tif"%string <> Predict.raster_name Examples.cfg "in/b.tif"
  /\ Predict.fs (Predict._predict Examples.ext Examples.cfg "in/b.tif" Examples.w0).2
       !! "in/b.tif"%string
     = Predict.fs Examples.w0 !! "in/b.tif"%string.
Proof.
  assert (H : "in/b.tif"%string <> Predict.raster_name Examples.cfg "in/b.tif")
    by (vm_compute; discriminate).
  split; [exact H|].
  exact (_predict_touches_only_output Examples.ext Examples.cfg "in/b.tif" "in/b.tif"
           Examples.w0 H).
Defined.

(** [in/b.tif] predicted on the fresh world, then once more. *)
Lemma _predict_rerun_is_skip_witness :
  Predict._predict Examples.ext Examples.cfg "in/b.tif" Examples.w0
  = (Predict.Ok tt, (Predict._predict Examples.ext Examples.cfg "in/b.tif" Examples.w0).2)
  /\ (Predict._predict Examples.ext Examples.cfg "in/b.tif"
        (Predict._predict Examples.ext Examples.cfg "in/b.tif" Examples.w0).2).1
     = Predict.Ok tt.
Proof.
  assert (H : Predict._predict Examples.ext Examples.cfg "in/b.tif" Examples.w0
              = (Predict.Ok tt,
                 (Predict._predict Examples.ext Examples.cfg "in/b.tif" Examples.w0).2)).
  { rewrite (surjective_pairing
               (Predict._predict Examples.ext Examples.cfg "in/b.tif" Examples.w0)) at 1.
    f_equal; vm_compute; reflexivity. }
  split; [exact H|].
  exact (f_equal fst (_predict_rerun_is_skip Examples.ext Examples.cfg "in/b.tif" _ _ H)).
Defined.

(** [in/b.tif] is predicted, [other/b.tiff] is then taken for done. *)
Lemma same_stem_second_input_skipped_witness :
  Props.no_slash "b" = true
  /\ String.length ".tif" = 4%nat
  /\ String.length "tiff" = 4%nat
  /\ Predict._predict Examples.ext Examples.cfg ("in" ++ "/" ++ "b" ++ ".tif") Examples.w0
     = (Predict.Ok tt,
        (Predict._predict Examples.ext Examples.cfg "in/b.tif" Examples.w0).2)
  /\ (Predict._predict Examples.ext Examples.cfg ("other" ++ "/" ++ "b" ++ "tiff")
        (Predict._predict Examples.ext Examples.cfg "in/b.tif" Examples.w0).2).1
     = Predict.Ok tt.
Proof.
  assert (H1 : Props.no_slash "b" = true) by reflexivity.
  assert (H2 : String.length ".tif" = 4%nat) by reflexivity.
  assert (H3 : String.length "tiff" = 4%nat) by reflexivity.
  assert (H4 : Predict._predict Examples.ext Examples.cfg ("in" ++ "/" ++ "b" ++ ".tif")
                 Examples.w0
               = (Predict.Ok tt,
                  (Predict._predict Examples.ext Examples.cfg "in/b.tif" Examples.w0).2)).
  { change ("in" ++ "/" ++ "b" ++ ".tif")%string with "in/b.tif"%string.
    rewrite (surjective_pairing
               (Predict._predict Examples.ext Examples.cfg "in/b.tif" Examples.w0)) at 1.
    f_equal; vm_compute; reflexivity. }
  repeat (split; [assumption|]).
  exact (f_equal fst
           (proj2 (same_stem_second_input_skipped Examples.ext Examples.cfg
                     "in" "other" "b" ".tif" "tiff" _ _ H1 H2 H3 H4))).
Defined.

(** The batch of [in/b.tif] alone on the world that holds its prediction. *)
Lemma predict_files_all_present_witness :
  Forall (fun f => is_Some (Predict.fs Examples.w1 !! Predict.raster_name Examples.cfg f))
         ["in/b.tif"%string]
  /\ (Predict.predict_files Examples.ext Examples.cfg ["in/b.tif"%string] Examples.w1).1
     = Predict.Ok tt.
Proof.
  assert (H : Forall (fun f => is_Some (Predict.fs Examples.w1
                                          !! Predict.raster_name Examples.cfg f))
                     ["in/b.tif"%string]).
  { constructor; [|constructor]. exists Predict.Blob. vm_compute. reflexivity. }
  split; [exact H|].
  exact (f_equal fst (predict_files_all_present Examples.ext Examples.cfg _ Examples.w1 H)).
Defined.

(** An empty model directory. *)
Lemma predict_without_model_raises_witness :
  model_filename Examples.cfg = None
  /\ Predict.glob Examples.ext_no_models (Py.path_join (model_dir Examples.cfg) "*.pt") = []
  /\ (Predict.predict Examples.ext_no_models Examples.cfg Examples.w0).1
     = Predict.Raised Predict.ValueError.
Proof.
  assert (H1 : model_filename Examples.cfg = None) by reflexivity.
  assert (H2 : Predict.glob Examples.ext_no_models
                 (Py.path_join (model_dir Examples.cfg) "*.pt") = []) by reflexivity.
  repeat (split; [assumption|]).
  exact (f_equal fst (predict_without_model_raises Examples.ext_no_models Examples.cfg
                        Examples.w0 H1 H2)).
Defined.

(* ===================================================================== *)
(** ** Predict: the no-data marking in general, and the successful call *)
(* ===================================================================== *)

Section NoData.

Import Predict.

Lemma zip_row_some_length {A} (f : A -> A -> A) (a b c : list A) :
  zip_row f a b = Some c -> length a = length b.
Proof.
  revert b c. induction a as [|x a IH]; intros [|y b] c; simpl; try discriminate.
  - reflexivity.
  - destruct (zip_row f a b) as [r|] eqn:E; simpl; [|discriminate].
    intros _. f_equal. exact (IH _ _ E).
Qed.

Lemma zip_arr2_some_shape {A} (f : A -> A -> A) (a b c : Np.arr2 A) :
  zip_arr2 f a b = Some c -> Props.same_shape a b.
Proof.
  revert b c. induction a as [|x a IH]; intros [|y b] c; simpl; try discriminate.
  - intros _. constructor.
  - destruct (zip_row f x y) as [r|] eqn:E1; simpl; [|discriminate].
    destruct (zip_arr2 f a b) as [rs|] eqn:E2; simpl; [|discriminate].
    intros _. constructor; [exact (zip_row_some_length _ _ _ _ E1)|exact (IH _ _ E2)].
Qed.

(** The boolean index must have the shape of the array it indexes. *)
Lemma apply_nodata_shape (masks segments out : Np.arr2 Z) (ndval : Z) :
  apply_nodata masks segments ndval = Some out -> Props.same_shape segments masks.
Proof.
  unfold apply_nodata. intros H. apply zip_arr2_some_shape in H.
  apply same_shape_map2d_l in H. do 2 apply same_shape_map2d_r in H. exact H.
Qed.

(** The result of the two masked assignments, pixel by pixel. *)
Lemma apply_nodata_pixels (masks segments : Np.arr2 Z) (ndval : Z) :
  Props.same_shape segments masks ->
  Props.all2 (fun m => 0 <= m <= 255) masks ->
  Props.all2 (fun s => -32768 <= s <= 32767) segments ->
  -32768 <= ndval <= 32767 ->
  exists out,
    apply_nodata masks segments ndval = Some out
    /\ Props.same_shape out segments
    /\ forall i j m s,
         Props.get2 masks i j = Some m -> Props.get2 segments i j = Some s ->
         Props.get2 out i j = Some (if (m =? 0) || (m =? ndval) then ndval else s).
Proof.
  intros Hshape Hmask Hseg Hnd. unfold apply_nodata.
  set (nd := Np.map2d (fun m => if m =? 0 then Np.astype_int16 ndval else m)
               (Np.map2d Np.astype_int16 masks)).
  set (sg := Np.map2d Np.astype_int16 segments).
  destruct (zip_arr2_defined (fun s m => if m =? ndval then m else s) sg nd)
    as (out & Hout & Hs).
  { subst sg nd. apply same_shape_map2d_l. do 2 apply same_shape_map2d_r.
    exact Hshape. }
  exists out. split; [exact Hout|]. split.
  - subst sg. apply same_shape_map2d_r in Hs. exact Hs.
  - intros i j m s Hm Hsg.
    pose proof (all2_get2 _ _ _ _ _ Hmask Hm) as Rm. simpl in Rm.
    pose proof (all2_get2 _ _ _ _ _ Hseg Hsg) as Rs. simpl in Rs.
    assert (Esg : Props.get2 sg i j = Some s).
    { subst sg. rewrite get2_map2d, Hsg. simpl. by rewrite astype_int16_id. }
    assert (End : Props.get2 nd i j = Some (if m =? 0 then ndval else m)).
    { subst nd. rewrite !get2_map2d, Hm. simpl.
      rewrite (astype_int16_id m) by lia. by rewrite (astype_int16_id ndval). }
    rewrite (zip_arr2_get2 _ _ _ _ Hout i j _ _ Esg End).
    destruct (m =? 0) eqn:E0; simpl.
    + by rewrite Z.eqb_refl.
    + destruct (m =? ndval) eqn:E1; [|reflexivity].
      apply Z.eqb_eq in E1. by rewrite E1.
Qed.

Variable ext : externals.

(** X6. For any int16 no-data value, [arr_to_tif] writes it where the mask
    band is 0 and also where the mask band happens to equal it: a no-data
    value of 255 replaces every valid pixel.  All other pixels keep the
    value of [segments]. *)
Theorem arr_to_tif_any_ndval (raster_f out_tif : string) (src : raster)
    (segments : Np.arr2 Z) (ndval : Z) (w : world) :
  fs w !! raster_f = Some (Raster src) ->
  Props.same_shape segments (read_masks ext src) ->
  Props.all2 (fun m => 0 <= m <= 255) (read_masks ext src) ->
  Props.all2 (fun s => -32768 <= s <= 32767) segments ->
  -32768 <= ndval <= 32767 ->
  exists out,
    arr_to_tif ext raster_f segments out_tif ndval w
    = (Ok tt,
       {| fs := <[ out_tif := Raster {| profile := out_meta (profile src);
                                        bands := [out] |} ]> (fs w);
          trace := trace w ++ [OpenRaster raster_f; WriteRaster out_tif] |})
    /\ forall i j m s,
         Props.get2 (read_masks ext src) i j = Some m ->
         Props.get2 segments i j = Some s ->
         Props.get2 out i j = Some (if (m =? 0) || (m =? ndval) then ndval else s).
Proof.
  intros Hsrc Hshape Hmask Hseg Hnd.
  destruct (apply_nodata_pixels _ _ _ Hshape Hmask Hseg Hnd) as (out & Hout & _ & Hpix).
  exists out. split; [|exact Hpix].
  unfold arr_to_tif, bind, open_raster, write_raster. rewrite Hsrc, Hout. simpl.
  rewrite <- app_assoc. reflexivity.
Qed.

(** X7. When [segments] has not the shape of the mask band of the source,
    [arr_to_tif] raises the IndexError of the boolean index after it has
    read the source, and writes nothing. *)
Theorem arr_to_tif_shape_mismatch (raster_f out_tif : string) (src : raster)
    (segments : Np.arr2 Z) (ndval : Z) (w : world) :
  fs w !! raster_f = Some (Raster src) ->
  ~ Props.same_shape segments (read_masks ext src) ->
  arr_to_tif ext raster_f segments out_tif ndval w
  = (Raised IndexError, {| fs := fs w; trace := trace w ++ [OpenRaster raster_f] |}).
Proof.
  intros Hsrc Hshape. unfold arr_to_tif, bind, open_raster, raise. rewrite Hsrc.
  destruct (apply_nodata (read_masks ext src) segments ndval) as [out|] eqn:E;
    [|reflexivity].
  exfalso. exact (Hshape (apply_nodata_shape _ _ _ _ E)).
Qed.

Variable self : Config.

(** X8. The call that does the work.  When the output is not there, the
    input is a raster and the segmentation returns a mask of the shape of
    the mask band, [_predict] returns normally after exactly these events:
    log of the file, read, log of the shape, inference, second read (by
    [arr_to_tif]), write, log of the saved name; the only file that
    changes is the output raster, which holds -9999 where the source has no
    data and the segmentation elsewhere, under the profile of the source
    with one int16 band. *)
Theorem _predict_writes_prediction (filename : string) (src : raster)
    (merged : Np.arr2 Z) (w : world) :
  fs w !! raster_name self filename = None ->
  fs w !! filename = Some (Raster src) ->
  let img := Np.map3d (_predict_pixel self)
               (Np.moveaxis_0_last (Preprocess.modify_bands (drop ext) self (bands src))) in
  segment ext (slicer_tile_size self) (slicer_tile_step self) img = Some merged ->
  Props.same_shape merged (read_masks ext src) ->
  Props.all2 (fun m => 0 <= m <= 255) (read_masks ext src) ->
  Props.all2 (fun s => -32768 <= s <= 32767) merged ->
  exists out,
    _predict ext self filename w
    = (Ok tt,
       {| fs := <[ raster_name self filename :=
                     Raster {| profile := out_meta (profile src); bands := [out] |} ]> (fs w);
          trace := trace w ++
            [Log (LogFile filename); OpenRaster filename;
             Log (TensorShape (shape_of img).1.1 (shape_of img).1.2 (shape_of img).2);
             Inference filename; OpenRaster filename;
             WriteRaster (raster_name self filename);
             Log (SavedFilename (raster_name self filename))] |})
    /\ forall i j m s,
         Props.get2 (read_masks ext src) i j = Some m ->
         Props.get2 merged i j = Some s ->
         Props.get2 out i j = Some (if m =? 0 then -9999 else s).
Proof.
  intros Hout Hsrc img Hseg Hshape Hmask Hmerged.
  destruct (apply_nodata_pixels _ _ (-9999) Hshape Hmask Hmerged ltac:(lia))
    as (out & Hnd & _ & Hpix).
  exists out. split.
  - unfold _predict, arr_to_tif, bind, logging_info, emit, isfile, open_raster,
      write_raster. simpl.
    rewrite Hout. rewrite bool_decide_eq_false_2 by (intros [? ?]; discriminate).
    simpl. rewrite Hsrc. fold img.
    destruct (shape_of img) as [[h wd] c]. simpl.
    rewrite Hseg. simpl. rewrite Hsrc, Hnd. simpl.
    rewrite <- !app_assoc. reflexivity.
  - intros i j m s Hm Hs. rewrite (Hpix i j m s Hm Hs).
    pose proof (all2_get2 _ _ _ _ _ Hmask Hm) as Rm. simpl in Rm.
    destruct (m =? 0) eqn:E0; simpl; [reflexivity|].
    assert (En : (m =? -9999) = false) by (apply Z.eqb_neq; lia).
    by rewrite En.
Qed.

End NoData.

(** A no-data value of 255 on the 2x2 source: the three valid pixels are
    overwritten as well. *)
Lemma arr_to_tif_any_ndval_witness :
  Predict.fs Examples.w0 !! "in/b.tif"%string = Some (Predict.Raster Examples.src)
  /\ Props.same_shape [[1; 1]; [1; 1]] (Predict.read_masks Examples.ext Examples.src)
  /\ Props.all2 (fun m => 0 <= m <= 255) (Predict.read_masks Examples.ext Examples.src)
  /\ Props.all2 (fun s => -32768 <= s <= 32767) [[1; 1]; [1; 1]]
  /\ -32768 <= 255 <= 32767
  /\ exists out,
       Predict.fs (Predict.arr_to_tif Examples.ext "in/b.tif" [[1; 1]; [1; 1]]
                     "out/b_pred.tif" 255 Examples.w0).2 !! "out/b_pred.tif"%string
       = Some (Predict.Raster {| Predict.profile := Predict.out_meta (Predict.profile Examples.src);
                                 Predict.bands := [out] |})
       /\ Props.get2 out 0 0 = Some 255
       /\ Props.get2 out 1 0 = Some 255.
Proof.
  assert (H1 : Predict.fs Examples.w0 !! "in/b.tif"%string = Some (Predict.Raster Examples.src))
    by (vm_compute; reflexivity).
  assert (H2 : Props.same_shape [[1; 1]; [1; 1]] (Predict.read_masks Examples.ext Examples.src))
    by (repeat constructor).
  assert (H3 : Props.all2 (fun m => 0 <= m <= 255)
                 (Predict.read_masks Examples.ext Examples.src))
    by (repeat constructor; lia).
  assert (H4 : Props.all2 (fun s => -32768 <= s <= 32767) [[1; 1]; [1; 1]])
    by (repeat constructor; lia).
  assert (H5 : -32768 <= 255 <= 32767) by lia.
  repeat (split; [assumption|]).
  destruct (arr_to_tif_any_ndval Examples.ext "in/b.tif" "out/b_pred.tif" Examples.src
              [[1; 1]; [1; 1]] 255 Examples.w0 H1 H2 H3 H4 H5)
    as (out & Hrun & Hpix).
  exists out. split; [|split].
  - rewrite Hrun. simpl. apply lookup_insert_eq.
  - exact (Hpix 0%nat 0%nat 255 1 eq_refl eq_refl).
  - exact (Hpix 1%nat 0%nat 0 1 eq_refl eq_refl).
Defined.

(** A 1x2 prediction for the 2x2 source. *)
Lemma arr_to_tif_shape_mismatch_witness :
  Predict.fs Examples.w0 !! "in/b.tif"%string = Some (Predict.Raster Examples.src)
  /\ ~ Props.same_shape [[1; 1]] (Predict.read_masks Examples.ext Examples.src)
  /\ (Predict.arr_to_tif Examples.ext "in/b.tif" [[1; 1]] "out/b_pred.tif" (-9999)
        Examples.w0).1
     = Predict.Raised Predict.IndexError.
Proof.
  assert (H1 : Predict.fs Examples.w0 !! "in/b.tif"%string = Some (Predict.Raster Examples.src))
    by (vm_compute; reflexivity).
  assert (H2 : ~ Props.same_shape [[1; 1]] (Predict.read_masks Examples.ext Examples.src)).
  { intros H. inversion H as [|? ? ? ? _ H']. inversion H'. }
  repeat (split; [assumption|]).
  exact (f_equal fst (arr_to_tif_shape_mismatch Examples.ext "in/b.tif" "out/b_pred.tif"
                        Examples.src [[1; 1]] (-9999) Examples.w0 H1 H2)).
Defined.

(** The prediction of [in/b.tif] on the fresh world. *)
Lemma _predict_writes_prediction_witness :
  Predict.fs Examples.w0 !! Predict.raster_name Examples.cfg "in/b.tif" = None
  /\ Predict.fs Examples.w0 !! "in/b.tif"%string = Some (Predict.Raster Examples.src)
  /\ Props.same_shape [[1; 1]; [1; 1]] (Predict.read_masks Examples.ext Examples.src)
  /\ exists out,
       (Predict._predict Examples.ext Examples.cfg "in/b.tif" Examples.w0).1 = Predict.Ok tt
       /\ Props.get2 out 1 0 = Some (-9999)
       /\ Props.get2 out 1 1 = Some 1.
Proof.
  assert (H1 : Predict.fs Examples.w0 !! Predict.raster_name Examples.cfg "in/b.tif" = None)
    by (vm_compute; reflexivity).
  assert (H2 : Predict.fs Examples.w0 !! "in/b.tif"%string = Some (Predict.Raster Examples.src))
    by (vm_compute; reflexivity).
  assert (H3 : Props.same_shape [[1; 1]; [1; 1]] (Predict.read_masks Examples.ext Examples.src))
    by (repeat constructor).
  assert (H4 : Props.all2 (fun m => 0 <= m <= 255)
                 (Predict.read_masks Examples.ext Examples.src))
    by (repeat constructor; lia).
  assert (H5 : Props.all2 (fun s => -32768 <= s <= 32767) [[1; 1]; [1; 1]])
    by (repeat constructor; lia).
  repeat (split; [assumption|]).
  destruct (_predict_writes_prediction Examples.ext Examples.cfg "in/b.tif" Examples.src
              [[1; 1]; [1; 1]] Examples.w0 H1 H2 eq_refl H3 H4 H5)
    as (out & Hrun & Hpix).
  exists out. split; [|split].
  - rewrite Hrun. reflexivity.
  - exact (Hpix 1%nat 0%nat 0 1 eq_refl eq_refl).
  - exact (Hpix 1%nat 1%nat 255 1 eq_refl eq_refl).
Defined.

(* ===================================================================== *)
(** ** Train: invariants of the loop *)
(* ===================================================================== *)

Section TrainInvariants.

Import Train.

Variable self : Config.

Lemma lt_irrefl (a : loss) : lt a a = false.
Proof.
  destruct (lt a a) eqn:E; [|reflexivity].
  pose proof (lt_asym _ _ E). congruence.
Qed.

(** One epoch: the counter stays within 0..5 and each step of the schedule
    is paid for by six counted epochs. *)
Lemma epoch_body_counter (epoch : nat) (l v : loss) (s : state) :
  0 <= scheduler_counter s <= 5 ->
  let s' := epoch_body self epoch l v s in
  0 <= scheduler_counter s' <= 5
  /\ 6 * Z.of_nat (length (lr_steps s')) + scheduler_counter s'
     <= 6 * Z.of_nat (length (lr_steps s)) + scheduler_counter s + 1.
Proof.
  intros Hc s'. subst s'. destruct (lt v (min_loss s)) eqn:E.
  - rewrite (epoch_body_best _ _ _ _ _ E). simpl. lia.
  - rewrite (epoch_body_not_best _ _ _ _ _ E). simpl.
    destruct (5 <? scheduler_counter s + 1) eqn:E5; simpl.
    + apply Z.ltb_lt in E5. lia.
    + apply Z.ltb_ge in E5. lia.
Qed.

Lemma run_epochs_counter (means : list (loss * loss)) (epoch : nat) (s : state) :
  0 <= scheduler_counter s <= 5 ->
  let s' := run_epochs self epoch means s in
  0 <= scheduler_counter s' <= 5
  /\ 6 * Z.of_nat (length (lr_steps s')) + scheduler_counter s'
     <= 6 * Z.of_nat (length (lr_steps s)) + scheduler_counter s + Z.of_nat (length means).
Proof.
  revert epoch s. induction means as [|[l v] means IH]; intros epoch s Hc; simpl.
  - lia.
  - destruct (epoch_body_counter epoch l v s Hc) as [B1 B2].
    destruct (IH (S epoch) _ B1) as [I1 I2]. lia.
Qed.

(** X9. Over a whole run of [train_loop] the learning-rate schedule is
    stepped at most once per six epochs, and the counter of epochs since
    the last improvement or step ends within 0..5. *)
Theorem lr_steps_at_most_every_six_epochs (means : list (loss * loss)) (s : state) :
  let s' := train_loop self means s in
  0 <= scheduler_counter s' <= 5
  /\ 6 * (Z.of_nat (length (lr_steps s')) - Z.of_nat (length (lr_steps s)))
     <= Z.of_nat (Nat.min (max_epoch self) (length means)).
Proof.
  intros s'. subst s'. unfold train_loop.
  match goal with |- context [run_epochs self 0 ?m ?s0] =>
    destruct (run_epochs_counter m 0 s0) as [I1 I2]; [simpl; lia|] end.
  simpl in I2. rewrite length_firstn in I2. split; [exact I1|]. lia.
Qed.

(** X10. Epochs that do not improve on [self.min_loss], such as epochs
    whose validation loss is NaN, save nothing and leave [self.min_loss]
    alone; over [n] of them, starting with the counter at [c], the schedule
    is stepped [(c + n) / 6] times and the counter ends at [(c + n) mod 6]. *)
Theorem plateau_steps_every_sixth_epoch (stale : list (loss * loss)) (epoch : nat)
    (s : state) :
  Forall (fun lv => lt lv.2 (min_loss s) = false) stale ->
  0 <= scheduler_counter s <= 5 ->
  let s' := run_epochs self epoch stale s in
  saved s' = saved s
  /\ min_loss s' = min_loss s
  /\ Z.of_nat (length (lr_steps s'))
     = Z.of_nat (length (lr_steps s))
       + (scheduler_counter s + Z.of_nat (length stale)) / 6
  /\ scheduler_counter s' = (scheduler_counter s + Z.of_nat (length stale)) mod 6.
Proof.
  revert epoch s. induction stale as [|[l v] stale IH]; intros epoch s Hst Hc; simpl.
  - rewrite Z.add_0_r, Z.div_small, Z.mod_small by lia. repeat split; lia.
  - inversion Hst as [|? ? Hv Hrest]; subst. simpl in Hv.
    pose proof (epoch_body_not_best self epoch l v s Hv) as E.
    destruct (IH (S epoch) (epoch_body self epoch l v s)) as (I1 & I2 & I3 & I4).
    + rewrite E. exact Hrest.
    + rewrite E. simpl. destruct (5 <? scheduler_counter s + 1) eqn:E5; [lia|].
      apply Z.ltb_ge in E5. lia.
    + rewrite I1, I2, I3, I4, E. simpl.
      split; [reflexivity|]. split; [reflexivity|].
      destruct (5 <? scheduler_counter s + 1) eqn:E5.
      * apply Z.ltb_lt in E5. assert (Hc5 : scheduler_counter s = 5) by lia.
        rewrite Hc5. simpl length.
        replace (5 + Z.of_nat (S (length stale)))
          with (Z.of_nat (length stale) + 1 * 6) by lia.
        rewrite Z.div_add, Z.mod_add, !Z.add_0_l by lia. split; lia.
      * replace (scheduler_counter s + Z.of_nat (S (length stale)))
          with (scheduler_counter s + 1 + Z.of_nat (length stale)) by lia.
        split; reflexivity.
Qed.

(** [self.min_loss] only goes down. *)
Lemma run_epochs_min_loss_down (means : list (loss * loss)) (epoch : nat) (s : state) :
  let s' := run_epochs self epoch means s in
  min_loss s' = min_loss s \/ lt (min_loss s') (min_loss s) = true.
Proof.
  revert epoch s. induction means as [|[l v] means IH]; intros epoch s; simpl.
  - by left.
  - destruct (lt v (min_loss s)) eqn:E.
    + destruct (IH (S epoch) (epoch_body self epoch l v s)) as [I|I];
        rewrite (epoch_body_best _ _ _ _ _ E) in I; simpl in I;
        rewrite (epoch_body_best _ _ _ _ _ E).
      * right. rewrite I. exact E.
      * right. exact (lt_trans _ _ _ I E).
    + destruct (IH (S epoch) (epoch_body self epoch l v s)) as [I|I];
        rewrite (epoch_body_not_best _ _ _ _ _ E) in I; simpl in I;
        rewrite (epoch_body_not_best _ _ _ _ _ E).
      * left. exact I.
      * right. exact I.
Qed.

Lemma not_lt_below (v m m' : loss) :
  lt v m = false -> (m' = m \/ lt m' m = true) -> lt v m' = false.
Proof.
  intros Hv [->|Hm]; [exact Hv|].
  destruct (lt v m') eqn:E; [|reflexivity].
  pose proof (lt_trans _ _ _ E Hm). congruence.
Qed.

(** X11. [self.min_loss] is the running minimum: after any number of
    epochs it is the old value or strictly below it, and no validation
    loss seen in those epochs is strictly below it. *)
Theorem min_loss_is_running_minimum (means : list (loss * loss)) (epoch : nat) (s : state) :
  let s' := run_epochs self epoch means s in
  (min_loss s' = min_loss s \/ lt (min_loss s') (min_loss s) = true)
  /\ forall l v, (l, v) ∈ means -> lt v (min_loss s') = false.
Proof.
  intros s'. subst s'. split; [apply run_epochs_min_loss_down|].
  revert epoch s. induction means as [|[l0 v0] means IH]; intros epoch s l v Hin.
  - by apply elem_of_nil in Hin.
  - simpl. apply elem_of_cons in Hin as [Heq|Hin]; [|exact (IH _ _ l v Hin)].
    injection Heq as -> ->.
    apply (not_lt_below v0 (min_loss (epoch_body self epoch l0 v0 s))).
    + destruct (lt v0 (min_loss s)) eqn:E.
      * rewrite (epoch_body_best _ _ _ _ _ E). simpl. apply lt_irrefl.
      * rewrite (epoch_body_not_best _ _ _ _ _ E). simpl. exact E.
    + apply run_epochs_min_loss_down.
Qed.

Lemma decreasing_from_snoc (m v : loss) (l : list loss) :
  Props.decreasing_from m l -> lt v (List.last l m) = true ->
  Props.decreasing_from m (l ++ [v]).
Proof.
  revert m. induction l as [|x l IH]; intros m; simpl.
  - intros _ Hv. split; [exact Hv|exact I].
  - intros [Hx Hl] Hv. split; [exact Hx|]. apply IH; [exact Hl|].
    rewrite <- (last_cons_default x l m). exact Hv.
Qed.

Lemma last_rev_head {A} (l : list A) (d : A) : List.last (rev l) d = hd d l.
Proof. destruct l as [|x l]; [reflexivity|]. simpl. apply last_last. Qed.

(** Every checkpoint improves on the one before, and the newest holds
    [self.min_loss]. *)
Lemma run_epochs_checkpoints_improve (means : list (loss * loss)) (epoch : nat) (s : state) :
  Props.decreasing_from PosInf (rev (map ck_val_loss (saved s))) ->
  min_loss s = hd PosInf (map ck_val_loss (saved s)) ->
  let s' := run_epochs self epoch means s in
  Props.decreasing_from PosInf (rev (map ck_val_loss (saved s')))
  /\ min_loss s' = hd PosInf (map ck_val_loss (saved s')).
Proof.
  revert epoch s. induction means as [|[l v] means IH]; intros epoch s Hdec Hmin; simpl.
  - split; assumption.
  - apply IH.
    + destruct (lt v (min_loss s)) eqn:E.
      * rewrite (epoch_body_best _ _ _ _ _ E). simpl.
        apply decreasing_from_snoc; [exact Hdec|].
        rewrite last_rev_head, <- Hmin. exact E.
      * rewrite (epoch_body_not_best _ _ _ _ _ E). simpl. exact Hdec.
    + destruct (lt v (min_loss s)) eqn:E.
      * rewrite (epoch_body_best _ _ _ _ _ E). reflexivity.
      * rewrite (epoch_body_not_best _ _ _ _ _ E). simpl. exact Hmin.
Qed.

(** X12. In a training run from the initial state the validation losses
    of the checkpoints, in the order in which they were saved, go strictly
    down, and the checkpoint saved last carries the final [self.min_loss]:
    the newest checkpoint file is the best one. *)
Theorem newest_checkpoint_is_best (means : list (loss * loss)) :
  let s' := train_loop self means initial in
  Props.decreasing_from PosInf (rev (map ck_val_loss (saved s')))
  /\ min_loss s' = hd PosInf (map ck_val_loss (saved s')).
Proof.
  intros s'. subst s'. unfold train_loop.
  apply run_epochs_checkpoints_improve; simpl; auto.
Qed.

Lemma run_epochs_plot_losses (means : list (loss * loss)) (epoch : nat) (s : state) :
  plot_losses (run_epochs self epoch means s)
  = plot_losses s ++ Props.plot_rows epoch means.
Proof.
  revert epoch s. induction means as [|[l v] means IH]; intros epoch s; simpl.
  - by rewrite app_nil_r.
  - rewrite IH. unfold epoch_body.
    destruct (lt v (min_loss s)); destruct (5 <? _); simpl;
      rewrite <- app_assoc; reflexivity.
Qed.

Lemma length_plot_rows (means : list (loss * loss)) (epoch : nat) :
  length (Props.plot_rows epoch means) = length means.
Proof.
  revert epoch. induction means as [|[l v] means IH]; intros epoch; simpl;
    [reflexivity|]. by rewrite IH.
Qed.

(** X13. [train_loop] returns one row per epoch it ran, numbered from 0,
    with the mean training and validation loss of that epoch, whatever
    [plot_losses] of an earlier run held; with [max_epoch = 0] it returns
    the empty list. *)
Theorem train_loop_returns_one_row_per_epoch (means : list (loss * loss)) (s : state) :
  plot_losses (train_loop self means s)
  = Props.plot_rows 0 (firstn (max_epoch self) means)
  /\ length (plot_losses (train_loop self means s))
     = Nat.min (max_epoch self) (length means).
Proof.
  unfold train_loop. rewrite run_epochs_plot_losses. simpl.
  split; [reflexivity|]. by rewrite length_plot_rows, length_firstn.
Qed.

End TrainInvariants.

(** Thirteen epochs without a usable validation loss, from the start. *)
Lemma plateau_steps_every_sixth_epoch_witness :
  let stale := repeat (Examples.fin 1, Train.NaN) 13 in
  Forall (fun lv => Train.lt lv.2 (Train.min_loss Train.initial) = false) stale
  /\ 0 <= Train.scheduler_counter Train.initial <= 5
  /\ Train.saved (Train.run_epochs Examples.cfg 0 stale Train.initial) = []
  /\ length (Train.lr_steps (Train.run_epochs Examples.cfg 0 stale Train.initial)) = 2%nat.
Proof.
  intros stale.
  assert (H1 : Forall (fun lv => Train.lt lv.2 (Train.min_loss Train.initial) = false) stale)
    by (repeat constructor).
  assert (H2 : 0 <= Train.scheduler_counter Train.initial <= 5) by (simpl; lia).
  repeat (split; [assumption|]).
  destruct (plateau_steps_every_sixth_epoch Examples.cfg stale 0 Train.initial H1 H2)
    as (S1 & _ & S3 & _).
  split; [exact S1|].
  apply Nat2Z.inj. rewrite S3. reflexivity.
Defined.

(* ===================================================================== *)
(** ** CloudDataset: more on the file lists *)
(* ===================================================================== *)

Section DatasetLists.

Import CloudDataset.

Variable listdir : string -> list string.

Lemma deref_append_other (l l' : loc) (e : entry) (st : gmap nat (list entry)) :
  l <> l' -> deref (append l e st) l' = deref st l'.
Proof. intros H. unfold deref at 1, append. by rewrite lookup_insert_ne. Qed.

Lemma deref_foldl_append_other {I} (g : I -> entry) (l l' : loc) (xs : list I)
    (st : gmap nat (list entry)) :
  l <> l' -> deref (foldl (fun s i => append l (g i) s) st xs) l' = deref st l'.
Proof.
  intros H. revert st. induction xs as [|x xs IH]; intros st; simpl; [reflexivity|].
  rewrite IH. by apply deref_append_other.
Qed.

(** X14. A dataset does not own its list of files: building a second
    [CloudDataset] appends to the list the first one holds, so the length
    of the first dataset grows by the number of images of the second
    directory, and both datasets end with the same length. *)
Theorem dataset_length_grows_with_later_dataset (d1 d2 : string)
    (st : gmap nat (list entry)) :
  let r1 := __init__ listdir d1 true st in
  let r2 := __init__ listdir d2 true r1.2 in
  files r1.1 = files r2.1
  /\ __len__ r1.1 r2.2
     = (__len__ r1.1 r1.2 + length (listdir (Py.path_join d2 "images")))%nat
  /\ __len__ r1.1 r2.2 = __len__ r2.1 r2.2.
Proof.
  intros r1 r2. subst r1 r2. unfold __init__, __len__. simpl.
  split; [reflexivity|]. split; [|reflexivity].
  change (foldl _ (foldl _ st (listdir (Py.path_join d1 "images")))
                (listdir (Py.path_join d2 "images")))
    with (list_files listdir d2 None (list_files listdir d1 None st).2).2.
  rewrite (list_files_default_contents listdir d2), length_app.
  unfold Props.entries_of. by rewrite length_map.
Qed.

(** X15. With a list of its own, at a location other than the default's,
    [list_files] appends the entries of the directory to that list, in the
    order of [os.listdir], returns it, and leaves the shared default as it
    was. *)
Theorem list_files_with_own_list (d : string) (l : loc) (st : gmap nat (list entry)) :
  l <> files_list_default ->
  let r := list_files listdir d (Some l) st in
  r.1 = l
  /\ deref r.2 l = deref st l ++ Props.entries_of listdir d
  /\ deref r.2 files_list_default = deref st files_list_default.
Proof.
  intros Hl r. subst r. unfold list_files. simpl. split; [reflexivity|]. split.
  - apply deref_foldl_append.
  - by apply deref_foldl_append_other.
Qed.

End DatasetLists.

(** A fresh list at location 1, after a dataset was built on the default. *)
Lemma list_files_with_own_list_witness :
  1%nat <> CloudDataset.files_list_default
  /\ length (CloudDataset.deref
               (CloudDataset.list_files Examples.listdir "more" (Some 1%nat)
                  (Props.list_files_each Examples.listdir ["data"%string]
                     CloudDataset.initial_store)).2 1%nat) = 2%nat.
Proof.
  assert (H : 1%nat <> CloudDataset.files_list_default) by discriminate.
  split; [exact H|].
  rewrite (proj1 (proj2 (list_files_with_own_list Examples.listdir "more" 1%nat _ H))).
  reflexivity.
Defined.

(* ===================================================================== *)
(** ** Array layout: channel-first and channel-last *)
(* ===================================================================== *)

Section Layout.

Lemma rect_cons {A} (r c : nat) (row : list A) (m : Np.arr2 A) :
  Props.rect (S r) c (row :: m) <-> length row = c /\ Props.rect r c m.
Proof.
  unfold Props.rect. simpl. rewrite Forall_cons. split.
  - intros (Hl & Hr & Hm). split; [exact Hr|]. split; [lia|exact Hm].
  - intros (Hr & Hl & Hm). split; [lia|]. split; assumption.
Qed.

(** The transpose of an r x c array (r > 0) is c x r and holds at [j, i]
    what the array holds at [i, j]. *)
Lemma transpose_spec {A} (m : Np.arr2 A) (r c : nat) :
  Props.rect r c m -> (0 < r)%nat ->
  Props.rect c r (Np.transpose m)
  /\ forall i j, Props.get2 (Np.transpose m) j i = Props.get2 m i j
                 \/ ((r <= i)%nat /\ Props.get2 (Np.transpose m) j i = None).
Proof.
  revert r. induction m as [|row m IH]; intros r Hrect Hr.
  - destruct Hrect as [Hl _]. simpl in Hl. lia.
  - destruct r as [|r]; [lia|]. apply rect_cons in Hrect as [Hrow Hm].
    destruct m as [|row2 m].
    + destruct Hm as [Hl _]. simpl in Hl. subst r. simpl. split.
      * split; [by rewrite length_map|].
        apply Forall_lookup. intros k x Hx. rewrite lookup_map in Hx.
        destruct (row !! k); simpl in Hx; [|discriminate]. by injection Hx as <-.
      * intros i j. unfold Props.get2. rewrite lookup_map.
        destruct i as [|i].
        -- left. simpl. destruct (row !! j); reflexivity.
        -- right. split; [lia|]. destruct (row !! j); reflexivity.
    + assert (Hr' : (0 < r)%nat) by (destruct Hm as [Hl _]; simpl in Hl; lia).
      destruct (IH r Hm Hr') as [[Tl Tr] Tget].
      change (Np.transpose (row :: row2 :: m))
        with (zip_with cons row (Np.transpose (row2 :: m))).
      set (T := Np.transpose (row2 :: m)) in *. clearbody T.
      split.
      * split.
        -- rewrite length_zip_with, Hrow, Tl. lia.
        -- apply Forall_lookup. intros k x Hx. rewrite lookup_zip_with in Hx.
           destruct (row !! k) as [a|]; simpl in Hx; [|discriminate].
           destruct (T !! k) as [t|] eqn:Et; simpl in Hx; [|discriminate].
           injection Hx as <-. simpl. f_equal.
           exact (Forall_lookup_1 _ _ _ _ Tr Et).
      * intros i j. unfold Props.get2 in *. rewrite lookup_zip_with.
        destruct (row !! j) as [a|] eqn:Ea; simpl.
        -- assert (Hj : (j < c)%nat) by (rewrite <- Hrow; eapply lookup_lt_Some; eauto).
           destruct (T !! j) as [t|] eqn:Et; simpl.
           ++ destruct i as [|i]; simpl.
              ** left. by rewrite Ea.
              ** specialize (Tget i j). rewrite Et in Tget.
                 destruct Tget as [G|[G1 G2]]; [left; exact G|right; split; [lia|exact G2]].
           ++ apply lookup_ge_None in Et. lia.
        -- left. destruct i as [|i]; simpl; [by rewrite Ea|].
           assert (Hj : (c <= j)%nat) by (rewrite <- Hrow; by apply lookup_ge_None).
           destruct ((row2 :: m) !! i) as [ri|] eqn:Ei; [|reflexivity].
           symmetry. apply lookup_ge_None.
           destruct Hm as [_ Hm]. rewrite (Forall_lookup_1 _ _ _ _ Hm Ei). exact Hj.
Qed.

Lemma transpose_rect {A} (m : Np.arr2 A) (r c : nat) :
  Props.rect r c m -> (0 < r)%nat -> Props.rect c r (Np.transpose m).
Proof. intros H Hr. exact (proj1 (transpose_spec m r c H Hr)). Qed.

Lemma transpose_get2 {A} (m : Np.arr2 A) (r c i j : nat) :
  Props.rect r c m -> (i < r)%nat ->
  Props.get2 (Np.transpose m) j i = Props.get2 m i j.
Proof.
  intros H Hi. destruct (proj2 (transpose_spec m r c H ltac:(lia)) i j) as [E|[E _]];
    [exact E|lia].
Qed.

(** Two arrays of one shape with the same elements are equal. *)
Lemma rect_ext {A} (a b : Np.arr2 A) (r c : nat) :
  Props.rect r c a -> Props.rect r c b ->
  (forall i j, (i < r)%nat -> (j < c)%nat -> Props.get2 a i j = Props.get2 b i j) ->
  a = b.
Proof.
  intros [La Ra] [Lb Rb] H. apply (list_eq_same_length _ _ r); [exact Lb|exact La|].
  intros i x y Hi Hx Hy.
  apply (list_eq_same_length _ _ c).
  - exact (Forall_lookup_1 _ _ _ _ Rb Hy).
  - exact (Forall_lookup_1 _ _ _ _ Ra Hx).
  - intros j u v Hj Hu Hv. specialize (H i j Hi Hj). unfold Props.get2 in H.
    rewrite Hx, Hy in H. congruence.
Qed.

Lemma transpose_involutive {A} (m : Np.arr2 A) (r c : nat) :
  Props.rect r c m -> (0 < r)%nat -> (0 < c)%nat ->
  Np.transpose (Np.transpose m) = m.
Proof.
  intros H Hr Hc.
  pose proof (transpose_rect m r c H Hr) as H1.
  pose proof (transpose_rect _ c r H1 Hc) as H2.
  apply (rect_ext _ _ r c H2 H). intros i j Hi Hj.
  rewrite (transpose_get2 _ c r j i H1 Hj). apply (transpose_get2 _ r c i j H Hi).
Qed.

(** Whatever holds of every element holds of every element of the transpose. *)
Lemma transpose_all2 {A} (P : A -> Prop) (m : Np.arr2 A) :
  Props.all2 P m -> Props.all2 P (Np.transpose m).
Proof.
  unfold Props.all2. induction m as [|row m IH]; intros H; [constructor|].
  apply Forall_cons in H as [Hrow Hm]. specialize (IH Hm).
  destruct m as [|row2 m].
  - simpl. apply Forall_lookup. intros k x Hx. rewrite lookup_map in Hx.
    destruct (row !! k) as [a|] eqn:Ea; simpl in Hx; [|discriminate].
    injection Hx as <-. constructor; [|constructor].
    exact (Forall_lookup_1 _ _ _ _ Hrow Ea).
  - change (Np.transpose (row :: row2 :: m))
      with (zip_with cons row (Np.transpose (row2 :: m))).
    set (T := Np.transpose (row2 :: m)) in *. clearbody T.
    apply Forall_lookup. intros k x Hx. rewrite lookup_zip_with in Hx.
    destruct (row !! k) as [a|] eqn:Ea; simpl in Hx; [|discriminate].
    destruct (T !! k) as [t|] eqn:Et; simpl in Hx; [|discriminate].
    injection Hx as <-. constructor.
    + exact (Forall_lookup_1 _ _ _ _ Hrow Ea).
    + exact (Forall_lookup_1 _ _ _ _ IH Et).
Qed.

End Layout.

Section Moveaxis.

Lemma map_fixed {A} (f : A -> A) (l : list A) :
  Forall (fun x => f x = x) l -> map f l = l.
Proof. induction 1 as [|x l Hx _ IH]; simpl; [reflexivity|]. by rewrite Hx, IH. Qed.

(** A (d0,d1,d2) array is a d0 x d1 array of rows of d2 items. *)
Lemma rect3_outer {A} (t : Np.arr3 A) (d0 d1 d2 : nat) :
  Props.rect3 d0 d1 d2 t ->
  Props.rect d0 d1 t /\ Props.all2 (fun row => length row = d2) t.
Proof.
  intros [Hl Ht]. split; [split; [exact Hl|]|].
  - eapply Forall_impl; [exact Ht|]. by intros m [Hm _].
  - eapply Forall_impl; [exact Ht|]. by intros m [_ Hm].
Qed.

Lemma rect3_of_outer {A} (t : Np.arr3 A) (d0 d1 d2 : nat) :
  Props.rect d0 d1 t -> Props.all2 (fun row => length row = d2) t ->
  Props.rect3 d0 d1 d2 t.
Proof.
  intros [Hl Ht] Hall. split; [exact Hl|].
  apply Forall_lookup. intros i m Hm. split.
  - exact (Forall_lookup_1 _ _ _ _ Ht Hm).
  - exact (Forall_lookup_1 _ _ _ _ Hall Hm).
Qed.

Lemma get3_get2 {A} (t : Np.arr3 A) (i j k : nat) :
  Props.get3 t i j k = match Props.get2 t i j with Some row => row !! k | None => None end.
Proof. unfold Props.get3, Props.get2. destruct (t !! i); reflexivity. Qed.

(** The (H,W,C) array that [moveaxis_0_last] makes of a (C,H,W) array. *)
Lemma moveaxis_0_last_rect {A} (t : Np.arr3 A) (C H W : nat) :
  Props.rect3 C H W t -> (0 < C)%nat -> (0 < W)%nat ->
  Props.rect3 H W C (Np.moveaxis_0_last t).
Proof.
  intros Ht HC HW. destruct (rect3_outer _ _ _ _ Ht) as [Ho Ha].
  pose proof (transpose_rect t C H Ho HC) as [Tl Tr].
  pose proof (transpose_all2 _ t Ha) as Ta.
  unfold Np.moveaxis_0_last. split; [by rewrite length_map|].
  apply Forall_lookup. intros i m Hm. rewrite lookup_map in Hm.
  destruct (Np.transpose t !! i) as [e|] eqn:Ee; simpl in Hm; [|discriminate].
  injection Hm as <-. apply (transpose_rect e C W); [|exact HC].
  split; [exact (Forall_lookup_1 _ _ _ _ Tr Ee)|exact (Forall_lookup_1 _ _ _ _ Ta Ee)].
Qed.

(** X16. The two layout changes undo each other: a (C,H,W) raster that
    [_preprocess] and [_predict] turn channel-last with
    [np.moveaxis(img, 0, -1)] comes back as it was when [open_image]
    (with [transpose((2, 0, 1))]) or the tile loop of [_predict] (with
    [np.moveaxis(tile, -1, 0)]) turns it channel-first again. *)
Theorem moveaxis_round_trip {A} (t : Np.arr3 A) (C H W : nat) :
  Props.rect3 C H W t -> (0 < C)%nat -> (0 < H)%nat -> (0 < W)%nat ->
  Np.moveaxis_last_0 (Np.moveaxis_0_last t) = t.
Proof.
  intros Ht HC HH HW. destruct (rect3_outer _ _ _ _ Ht) as [Ho Ha].
  pose proof (transpose_rect t C H Ho HC) as [Tl Tr].
  pose proof (transpose_all2 _ t Ha) as Ta.
  unfold Np.moveaxis_last_0, Np.moveaxis_0_last. rewrite map_map, map_fixed.
  - exact (transpose_involutive t C H Ho HC HH).
  - apply Forall_lookup. intros i e He.
    apply (transpose_involutive e C W); [|exact HC|exact HW].
    split; [exact (Forall_lookup_1 _ _ _ _ Tr He)|exact (Forall_lookup_1 _ _ _ _ Ta He)].
Qed.

(** Channel-first from channel-last, element by element. *)
Lemma moveaxis_last_0_get3 {A} (t : Np.arr3 A) (H W C c h w : nat) :
  Props.rect3 H W C t -> (h < H)%nat -> (w < W)%nat ->
  Props.get3 (Np.moveaxis_last_0 t) c h w = Props.get3 t h w c.
Proof.
  intros [Hl Ht] Hh Hw. unfold Np.moveaxis_last_0.
  assert (Hu : Props.rect H C (map Np.transpose t)).
  { split; [by rewrite length_map|]. apply Forall_lookup. intros i m Hm.
    rewrite lookup_map in Hm.
    destruct (t !! i) as [e|] eqn:Ee; simpl in Hm; [|discriminate].
    injection Hm as <-.
    exact (proj1 (transpose_rect e W C (Forall_lookup_1 _ _ _ _ Ht Ee) ltac:(lia))). }
  rewrite get3_get2, (transpose_get2 _ H C h c Hu Hh).
  unfold Props.get2 at 1. rewrite lookup_map. unfold Props.get3.
  destruct (t !! h) as [e|] eqn:Ee; simpl; [|reflexivity].
  pose proof (transpose_get2 e W C w c (Forall_lookup_1 _ _ _ _ Ht Ee) Hw) as G.
  unfold Props.get2 in G at 1. exact G.
Qed.

Lemma get3_map3d {A B} (g : A -> B) (t : Np.arr3 A) (i j k : nat) :
  Props.get3 (Np.map3d g t) i j k = g <$> Props.get3 t i j k.
Proof.
  unfold Props.get3, Np.map3d. rewrite lookup_map.
  destruct (t !! i) as [m|]; simpl; [|reflexivity]. apply get2_map2d.
Qed.

(** X17. [open_image] hands the (H,W,C) tile over channel-first and
    normalized: entry [c, h, w] of what it returns is pixel [h, w] of band
    [c] of the file divided by the largest value of the file's dtype. *)
Theorem open_image_channel_first
    (imread : string -> option (CloudDataset.dtype * Np.arr3 Z))
    (self : CloudDataset.t) (st : gmap nat (list CloudDataset.entry)) (idx : nat)
    (e : CloudDataset.entry) (d : CloudDataset.dtype) (img : Np.arr3 Z) (H W C : nat) :
  CloudDataset.deref st (CloudDataset.files self) !! idx = Some e ->
  imread (CloudDataset.image e) = Some (d, img) ->
  Props.rect3 H W C img ->
  exists x,
    CloudDataset.open_image imread self st idx = Some x
    /\ forall c h w, (h < H)%nat -> (w < W)%nat ->
         Props.get3 x c h w
         = (fun v => inject_Z v / inject_Z (CloudDataset.iinfo_max d))%Q
             <$> Props.get3 img h w c.
Proof.
  intros He Hread Himg. unfold CloudDataset.open_image. rewrite He. simpl.
  rewrite Hread. simpl. eexists. split; [reflexivity|].
  intros c h w Hh Hw. rewrite get3_map3d.
  by rewrite (moveaxis_last_0_get3 img H W C c h w Himg Hh Hw).
Qed.

End Moveaxis.

(** The 3x4 two-band image read channel-first and back. *)
Lemma moveaxis_round_trip_witness :
  Props.rect3 2 3 4 (Np.moveaxis_last_0 Examples.image_hwc)
  /\ Np.moveaxis_last_0 (Np.moveaxis_0_last (Np.moveaxis_last_0 Examples.image_hwc))
     = Np.moveaxis_last_0 Examples.image_hwc.
Proof.
  assert (H : Props.rect3 2 3 4 (Np.moveaxis_last_0 Examples.image_hwc)).
  { vm_compute. repeat constructor. }
  split; [exact H|].
  apply (moveaxis_round_trip _ 2 3 4 H); lia.
Defined.

(** The first tile of the dataset built on [data]. *)
Lemma open_image_channel_first_witness :
  let r := CloudDataset.__init__ Examples.listdir "data" true CloudDataset.initial_store in
  let e := {| CloudDataset.image := "data/images/t0.tif";
              CloudDataset.label := "data/labels/t0.tif" |} in
  CloudDataset.deref r.2 (CloudDataset.files r.1) !! 0%nat = Some e
  /\ Examples.imread_image (CloudDataset.image e)
     = Some (CloudDataset.int16, [[[1]; [2]]; [[3]; [4]]])
  /\ Props.rect3 2 2 1 [[[1]; [2]]; [[3]; [4]]]
  /\ exists x, CloudDataset.open_image Examples.imread_image r.1 r.2 0 = Some x
               /\ Props.get3 x 0 1 0 = Some (3 # 32767)%Q.
Proof.
  intros r e.
  assert (H1 : CloudDataset.deref r.2 (CloudDataset.files r.1) !! 0%nat = Some e)
    by (vm_compute; reflexivity).
  assert (H2 : Examples.imread_image (CloudDataset.image e)
               = Some (CloudDataset.int16, [[[1]; [2]]; [[3]; [4]]])) by reflexivity.
  assert (H3 : Props.rect3 2 2 1 [[[1]; [2]]; [[3]; [4]]]) by (repeat constructor).
  repeat (split; [assumption|]).
  destruct (open_image_channel_first Examples.imread_image r.1 r.2 0 e _ _ 2 2 1 H1 H2 H3)
    as (x & Hx & Hget).
  exists x. split; [exact Hx|].
  rewrite (Hget 0%nat 1%nat 0%nat) by lia. vm_compute. reflexivity.
Defined.

(* ===================================================================== *)
(** ** Preprocess: region of interest, labels and value range *)
(* ===================================================================== *)

Section PreprocessSteps.

(** A slice with bounds that are not negative holds item [lo + i] of the
    sequence at [i] for [i < hi - lo], and nothing beyond; bounds past the
    end of the sequence shorten the slice, they do not raise. *)
Lemma slice_lookup {A} (lo hi : Z) (l : list A) (i : nat) :
  0 <= lo -> 0 <= hi ->
  Py.slice lo hi l !! i
  = if Z.of_nat i <? hi - lo then l !! (Z.to_nat lo + i)%nat else None.
Proof.
  intros Hlo Hhi. unfold Py.slice, Py.slice_bound.
  destruct (lo <? 0) eqn:E1; [apply Z.ltb_lt in E1; lia|].
  destruct (hi <? 0) eqn:E2; [apply Z.ltb_lt in E2; lia|].
  rewrite lookup_take, lookup_drop.
  destruct (Z.of_nat i <? hi - lo) eqn:E.
  - apply Z.ltb_lt in E. case_decide as Hd.
    + destruct (Z.le_gt_cases lo (Z.of_nat (length l))) as [Hle|Hgt].
      * rewrite Z.min_l by lia. reflexivity.
      * rewrite !lookup_ge_None_2; [reflexivity|lia|lia].
    + symmetry. apply lookup_ge_None_2. lia.
  - apply Z.ltb_ge in E. case_decide as Hd; [|reflexivity].
    lia.
Qed.

(** X18. [modify_roi] cuts the same window out of the (H,W,C) image and
    out of the (H,W) mask: for bounds that are not negative, position
    [i, j] of both crops holds what position [ymin + i, xmin + j] of the
    originals holds, for [i < ymax - ymin] and [j < xmax - xmin], and the
    crops hold nothing else. *)
Theorem modify_roi_same_window {A B} (img : Np.arr3 A) (mask : Np.arr2 B)
    (ymin ymax xmin xmax : Z) (i j : nat) :
  0 <= ymin -> 0 <= ymax -> 0 <= xmin -> 0 <= xmax ->
  let crop := Preprocess.modify_roi img mask ymin ymax xmin xmax in
  let inside := (Z.of_nat i <? ymax - ymin) && (Z.of_nat j <? xmax - xmin) in
  Props.get2 crop.1 i j
  = (if inside then Props.get2 img (Z.to_nat ymin + i) (Z.to_nat xmin + j) else None)
  /\ Props.get2 crop.2 i j
     = (if inside then Props.get2 mask (Z.to_nat ymin + i) (Z.to_nat xmin + j) else None).
Proof.
  intros Hy0 Hy1 Hx0 Hx1 crop inside. subst crop inside.
  unfold Preprocess.modify_roi, Props.get2. simpl.
  rewrite !lookup_map, !(slice_lookup ymin ymax) by assumption.
  destruct (Z.of_nat i <? ymax - ymin); simpl; [|split; reflexivity].
  split.
  - destruct (img !! (Z.to_nat ymin + i)%nat) as [row|]; simpl.
    + apply slice_lookup; assumption.
    + by destruct (Z.of_nat j <? xmax - xmin).
  - destruct (mask !! (Z.to_nat ymin + i)%nat) as [row|]; simpl.
    + apply slice_lookup; assumption.
    + by destruct (Z.of_nat j <? xmax - xmin).
Qed.

Lemma fold_min_spec (r : list Z) (x : Z) :
  (fold_left Z.min r x = x \/ In (fold_left Z.min r x) r)
  /\ fold_left Z.min r x <= x
  /\ Forall (fun y => fold_left Z.min r x <= y) r.
Proof.
  revert x. induction r as [|y r IH]; intros x; simpl.
  - split; [by left|]. split; [lia|constructor].
  - destruct (IH (Z.min x y)) as (I1 & I2 & I3).
    split; [|split].
    + destruct I1 as [I1|I1]; [|right; by right].
      rewrite I1. destruct (Z.min_spec x y) as [[_ ->]|[_ ->]]; [by left|right; by left].
    + lia.
    + constructor; [lia|exact I3].
Qed.

(** [np.min] returns an element of the array that no element is below. *)
Lemma np_min_spec (mask : Np.arr2 Z) (mn : Z) :
  Preprocess.np_min mask = Some mn ->
  In mn (concat mask) /\ Props.all2 (fun v => mn <= v) mask.
Proof.
  unfold Preprocess.np_min, Props.all2. intros H.
  assert (Hall : In mn (concat mask) /\ Forall (fun v => mn <= v) (concat mask)).
  { destruct (concat mask) as [|x r]; [discriminate|]. injection H as <-.
    destruct (fold_min_spec r x) as (I1 & I2 & I3). split.
    - destruct I1 as [->|I1]; [by left|by right].
    - constructor; assumption. }
  destruct Hall as [Hin Hall]. split; [exact Hin|].
  clear -Hall. induction mask as [|row mask IH]; [constructor|].
  simpl in Hall. apply Forall_app in Hall as [H1 H2].
  constructor; [exact H1|exact (IH H2)].
Qed.

Lemma all2_map2d {A B} (P : A -> Prop) (Q : B -> Prop) (g : A -> B) (m : Np.arr2 A) :
  (forall a, P a -> Q (g a)) -> Props.all2 P m -> Props.all2 Q (Np.map2d g m).
Proof.
  intros Hg Hm. unfold Props.all2, Np.map2d in *.
  induction Hm as [|row m Hrow _ IH]; simpl; constructor; [|exact IH].
  induction Hrow as [|a row Ha _ IHr]; simpl; constructor; [by apply Hg|exact IHr].
Qed.

Lemma all2_true {A} (m : Np.arr2 A) : Props.all2 (fun _ => True) m.
Proof. unfold Props.all2. apply Forall_forall. intros row _. by apply Forall_forall. Qed.

(** X19. The label step of [_preprocess] fails on an array without
    elements and otherwise returns an array of the same shape in which no
    pixel has the label 14; when the smallest label was 1 the labels are
    shifted down by one first, so none is negative, the label 15 ends as 5
    like the label 6 does, and 14 ends as 13. *)
Theorem _preprocess_mask_relabels (mask : Np.arr2 Z) :
  (concat mask = [] -> Preprocess._preprocess_mask mask = None)
  /\ (concat mask <> [] ->
      exists out,
        Preprocess._preprocess_mask mask = Some out
        /\ Props.same_shape out mask
        /\ Props.all2 (fun v => v <> 14) out
        /\ (Preprocess.np_min mask = Some 1 ->
            Props.all2 (fun v => 0 <= v) out
            /\ forall i j v, Props.get2 mask i j = Some v ->
                 Props.get2 out i j = Some (if v =? 15 then 5 else v - 1))).
Proof.
  split.
  - intros H. unfold Preprocess._preprocess_mask, Preprocess.np_min. by rewrite H.
  - intros Hne. unfold Preprocess._preprocess_mask.
    destruct (Preprocess.np_min mask) as [mn|] eqn:Emin.
    2:{ unfold Preprocess.np_min in Emin. destruct (concat mask); [congruence|discriminate]. }
    simpl. eexists. split; [reflexivity|]. split; [|split].
    + apply same_shape_map2d_l. destruct (mn =? 1).
      * apply same_shape_map2d_l. unfold Props.same_shape.
        apply Forall2_same_length_lookup_2; [reflexivity|]. intros; congruence.
      * unfold Props.same_shape.
        apply Forall2_same_length_lookup_2; [reflexivity|]. intros; congruence.
    + apply (all2_map2d (fun _ => True)); [|apply all2_true].
      intros a _. destruct (a =? 14) eqn:E; [discriminate|]. by apply Z.eqb_neq.
    + intros H1. injection H1 as ->. simpl.
      destruct (np_min_spec mask 1 Emin) as [_ Hge]. split.
      * apply (all2_map2d (fun v => 0 <= v)).
        { intros a Ha. destruct (a =? 14); lia. }
        apply (all2_map2d (fun v => 1 <= v)); [intros; lia|exact Hge].
      * intros i j v Hv. rewrite !get2_map2d, Hv. simpl. f_equal.
        destruct (v - 1 =? 14) eqn:E.
        -- apply Z.eqb_eq in E. assert (Hv15 : v = 15) by lia. by rewrite Hv15.
        -- apply Z.eqb_neq in E. assert (Hv15 : (v =? 15) = false) by (apply Z.eqb_neq; lia).
           by rewrite Hv15.
Qed.

(** X20. Whatever the raw value, the pixel that training sees lies in
    [0, 1] as soon as the configured value range lies in [0, 32767]; it
    lies between [data_min / 32767] and [data_max / 32767]. *)
Theorem training_pixel_in_unit_interval (self : Config) (v : Z) :
  0 <= data_min self -> data_min self <= data_max self -> data_max self <= 32767 ->
  (inject_Z (data_min self) / inject_Z 32767 <= Preprocess.training_pixel self v)%Q
  /\ (Preprocess.training_pixel self v <= inject_Z (data_max self) / inject_Z 32767)%Q
  /\ (0 <= Preprocess.training_pixel self v)%Q
  /\ (Preprocess.training_pixel self v <= 1)%Q.
Proof.
  intros H0 H1 H2. unfold Preprocess.training_pixel, Preprocess._preprocess_pixel,
    Preprocess.modify_pixel_extremity, Np.clipZ. simpl CloudDataset.iinfo_max.
  set (c := Z.min (Z.max (Np.astype_int16 v) (data_min self)) (data_max self)).
  assert (Hc : data_min self <= c <= data_max self) by (subst c; lia).
  clearbody c. unfold Qle, Qdiv, Qmult, Qinv, inject_Z. simpl. lia.
Qed.

(** X21. At inference the clip bounds the normalized value: with a
    configured range from 0 to 1 or more, every pixel that reaches the
    model lies in [0, 1], and a raw value that is negative as int16, as
    the values from 32768 on of an unsigned raster are, reaches it as 0. *)
Theorem predict_pixel_in_unit_interval (self : Config) (v : Z) :
  data_min self = 0 -> 1 <= data_max self ->
  (0 <= Predict._predict_pixel self v)%Q
  /\ (Predict._predict_pixel self v <= 1)%Q
  /\ (Np.astype_int16 v <= 0 -> (Predict._predict_pixel self v == 0)%Q).
Proof.
  intros Hmin Hmax. unfold Predict._predict_pixel, Preprocess.modify_pixel_extremity_float,
    Np.clipQ, Np.Qmaxb, Np.Qminb. simpl CloudDataset.iinfo_max. rewrite Hmin.
  set (x := Np.astype_int16 v).
  assert (Hx : -32768 <= x <= 32767).
  { subst x. unfold Np.astype_int16.
    pose proof (Z.mod_pos_bound (v + 32768) 65536 ltac:(lia)). lia. }
  clearbody x.
  destruct (Qle_bool (inject_Z x / inject_Z 32767) (inject_Z 0)) eqn:E1.
  - apply Qle_bool_iff in E1.
    assert (E2 : Qle_bool (inject_Z 0) (inject_Z (data_max self)) = true).
    { apply Qle_bool_iff. unfold Qle. simpl. lia. }
    rewrite E2. split; [apply Qle_refl|]. split; [unfold Qle; simpl; lia|].
    intros _. reflexivity.
  - assert (Hpos : 0 < x).
    { destruct (Z.lt_ge_cases 0 x) as [H|H]; [exact H|]. exfalso.
      assert (T : Qle_bool (inject_Z x / inject_Z 32767) (inject_Z 0) = true).
      { apply Qle_bool_iff. unfold Qle, Qdiv, Qmult, Qinv, inject_Z. simpl. lia. }
      congruence. }
    destruct (Qle_bool (inject_Z x / inject_Z 32767) (inject_Z (data_max self))) eqn:E2.
    + split; [|split].
      * unfold Qle, Qdiv, Qmult, Qinv, inject_Z. simpl. lia.
      * unfold Qle, Qdiv, Qmult, Qinv, inject_Z. simpl. lia.
      * intros Hle. lia.
    + exfalso.
      assert (T : Qle_bool (inject_Z x / inject_Z 32767) (inject_Z (data_max self)) = true).
      { apply Qle_bool_iff. unfold Qle, Qdiv, Qmult, Qinv, inject_Z. simpl. nia. }
      congruence.
Qed.

End PreprocessSteps.

(** The 3x4 image and labels cut to rows 1..2 and columns 1..2. *)
Lemma modify_roi_same_window_witness :
  0 <= 1 /\ 0 <= 3 /\ 0 <= 1 /\ 0 <= 3
  /\ Props.get2 (Preprocess.modify_roi Examples.image_hwc Examples.labels 1 3 1 3).1 1 0
     = Some [100; 101]
  /\ Props.get2 (Preprocess.modify_roi Examples.image_hwc Examples.labels 1 3 1 3).2 1 0
     = Some 2.
Proof.
  assert (H0 : 0 <= 1) by lia. assert (H1 : 0 <= 3) by lia.
  split; [exact H0|]. split; [exact H1|]. split; [exact H0|]. split; [exact H1|].
  exact (modify_roi_same_window Examples.image_hwc Examples.labels 1 3 1 3 1 0 H0 H1 H0 H1).
Defined.

(** The 1-based labels of the example. *)
Lemma _preprocess_mask_relabels_witness :
  concat Examples.labels <> []
  /\ Preprocess._preprocess_mask Examples.labels
     = Some [[0; 1; 13; 5]; [2; 0; 5; 13]; [1; 1; 5; 8]].
Proof.
  assert (H : concat Examples.labels <> []) by discriminate.
  split; [exact H|].
  destruct (proj2 (_preprocess_mask_relabels Examples.labels) H) as (out & Hout & _).
  rewrite Hout. vm_compute in Hout. exact (eq_sym Hout).
Defined.

(** The raw values 20000 and -5 under the range [0, 10000]. *)
Lemma training_pixel_in_unit_interval_witness :
  0 <= data_min Examples.cfg
  /\ data_min Examples.cfg <= data_max Examples.cfg
  /\ data_max Examples.cfg <= 32767
  /\ (Preprocess.training_pixel Examples.cfg 20000 <= 1)%Q
  /\ (0 <= Preprocess.training_pixel Examples.cfg (-5))%Q.
Proof.
  assert (H0 : 0 <= data_min Examples.cfg) by (simpl; lia).
  assert (H1 : data_min Examples.cfg <= data_max Examples.cfg) by (simpl; lia).
  assert (H2 : data_max Examples.cfg <= 32767) by (simpl; lia).
  split; [exact H0|]. split; [exact H1|]. split; [exact H2|]. split.
  - exact (proj2 (proj2 (proj2
      (training_pixel_in_unit_interval Examples.cfg 20000 H0 H1 H2)))).
  - exact (proj1 (proj2 (proj2
      (training_pixel_in_unit_interval Examples.cfg (-5) H0 H1 H2)))).
Defined.

(** The value 40000 of an unsigned raster under the range [0, 10000]. *)
Lemma predict_pixel_in_unit_interval_witness :
  data_min Examples.cfg = 0
  /\ 1 <= data_max Examples.cfg
  /\ Np.astype_int16 40000 <= 0
  /\ (Predict._predict_pixel Examples.cfg 40000 == 0)%Q.
Proof.
  assert (H0 : data_min Examples.cfg = 0) by reflexivity.
  assert (H1 : 1 <= data_max Examples.cfg) by (simpl; lia).
  assert (H2 : Np.astype_int16 40000 <= 0) by (vm_compute; discriminate).
  split; [exact H0|]. split; [exact H1|]. split; [exact H2|].
  exact (proj2 (proj2 (predict_pixel_in_unit_interval Examples.cfg 40000 H0 H1)) H2).
Defined.

(* ===================================================================== *)
(** ** CloudDataset: the rotations of the augmentation compose *)
(* ===================================================================== *)

Section Rotations.

Lemma rev_lookup {A} (l : list A) (i : nat) :
  (i < length l)%nat -> rev l !! i = l !! (length l - S i)%nat.
Proof. intros H. rewrite rev_alt. exact (reverse_lookup l i H). Qed.

Lemma flipud_spec {A} (m : Np.arr2 A) (r c : nat) :
  Props.rect r c m ->
  Props.rect r c (Np.flipud m)
  /\ forall i j, (i < r)%nat -> Props.get2 (Np.flipud m) i j = Props.get2 m (r - S i) j.
Proof.
  intros [Hl Hr]. unfold Np.flipud. split.
  - split; [by rewrite length_rev|]. apply Forall_rev. exact Hr.
  - intros i j Hi. unfold Props.get2. rewrite rev_lookup by lia. by rewrite Hl.
Qed.

Lemma fliplr_spec {A} (m : Np.arr2 A) (r c : nat) :
  Props.rect r c m ->
  Props.rect r c (Np.fliplr m)
  /\ forall i j, (j < c)%nat -> Props.get2 (Np.fliplr m) i j = Props.get2 m i (c - S j).
Proof.
  intros [Hl Hr]. unfold Np.fliplr. split.
  - split; [by rewrite length_map|]. apply Forall_lookup. intros i x Hx.
    rewrite lookup_map in Hx. destruct (m !! i) as [row|] eqn:E; simpl in Hx; [|discriminate].
    injection Hx as <-. rewrite length_rev. exact (Forall_lookup_1 _ _ _ _ Hr E).
  - intros i j Hj. unfold Props.get2. rewrite lookup_map.
    destruct (m !! i) as [row|] eqn:E; simpl; [|reflexivity].
    pose proof (Forall_lookup_1 _ _ _ _ Hr E) as Hrow. simpl in Hrow.
    rewrite rev_lookup by lia. by rewrite Hrow.
Qed.

(** The three turns of an r x c array, element by element. *)
Lemma rot90_1_spec {A} (m : Np.arr2 A) (r c : nat) :
  Props.rect r c m -> (0 < r)%nat ->
  Props.rect c r (Np.rot90_01 1 m)
  /\ forall i j, (i < c)%nat -> (j < r)%nat ->
       Props.get2 (Np.rot90_01 1 m) i j = Props.get2 m j (c - S i).
Proof.
  intros H Hr. destruct (fliplr_spec m r c H) as [F1 F2].
  change (Np.rot90_01 1 m) with (Np.transpose (Np.fliplr m)). split.
  - exact (transpose_rect _ r c F1 Hr).
  - intros i j Hi Hj. rewrite (transpose_get2 _ r c j i F1 Hj). exact (F2 j i Hi).
Qed.

Lemma rot90_2_spec {A} (m : Np.arr2 A) (r c : nat) :
  Props.rect r c m ->
  Props.rect r c (Np.rot90_01 2 m)
  /\ forall i j, (i < r)%nat -> (j < c)%nat ->
       Props.get2 (Np.rot90_01 2 m) i j = Props.get2 m (r - S i) (c - S j).
Proof.
  intros H. destruct (fliplr_spec m r c H) as [F1 F2].
  destruct (flipud_spec _ r c F1) as [U1 U2].
  change (Np.rot90_01 2 m) with (Np.flipud (Np.fliplr m)). split; [exact U1|].
  intros i j Hi Hj. rewrite (U2 i j Hi). exact (F2 _ j Hj).
Qed.

Lemma rot90_3_spec {A} (m : Np.arr2 A) (r c : nat) :
  Props.rect r c m -> (0 < r)%nat ->
  Props.rect c r (Np.rot90_01 3 m)
  /\ forall i j, (i < c)%nat -> (j < r)%nat ->
       Props.get2 (Np.rot90_01 3 m) i j = Props.get2 m (r - S j) i.
Proof.
  intros H Hr. destruct (flipud_spec m r c H) as [U1 U2].
  change (Np.rot90_01 3 m) with (Np.transpose (Np.flipud m)). split.
  - exact (transpose_rect _ r c U1 Hr).
  - intros i j Hi Hj. rewrite (transpose_get2 _ r c j i U1 Hj). exact (U2 j i Hj).
Qed.

Lemma rot90_2_1 {A} (m : Np.arr2 A) (r c : nat) :
  Props.rect r c m -> (0 < r)%nat -> Np.rot90_01 2 (Np.rot90_01 1 m) = Np.rot90_01 3 m.
Proof.
  intros H Hr. destruct (rot90_1_spec m r c H Hr) as [A1 A2].
  destruct (rot90_2_spec _ c r A1) as [B1 B2].
  destruct (rot90_3_spec m r c H Hr) as [C1 C2].
  apply (rect_ext _ _ c r B1 C1). intros i j Hi Hj.
  rewrite (B2 i j Hi Hj), (A2 (c - S i) (r - S j))%nat, (C2 i j Hi Hj) by lia.
  f_equal. lia.
Qed.

Lemma rot90_3_1 {A} (m : Np.arr2 A) (r c : nat) :
  Props.rect r c m -> (0 < r)%nat -> (0 < c)%nat ->
  Np.rot90_01 3 (Np.rot90_01 1 m) = m.
Proof.
  intros H Hr Hc. destruct (rot90_1_spec m r c H Hr) as [A1 A2].
  destruct (rot90_3_spec _ c r A1 Hc) as [B1 B2].
  apply (rect_ext _ _ r c B1 H). intros i j Hi Hj.
  rewrite (B2 i j Hi Hj), (A2 (c - S j) i)%nat by lia. f_equal. lia.
Qed.

Lemma rot90_3_2 {A} (m : Np.arr2 A) (r c : nat) :
  Props.rect r c m -> (0 < r)%nat -> Np.rot90_01 3 (Np.rot90_01 2 m) = Np.rot90_01 1 m.
Proof.
  intros H Hr. destruct (rot90_2_spec m r c H) as [A1 A2].
  destruct (rot90_3_spec _ r c A1 Hr) as [B1 B2].
  destruct (rot90_1_spec m r c H Hr) as [C1 C2].
  apply (rect_ext _ _ c r B1 C1). intros i j Hi Hj.
  rewrite (B2 i j Hi Hj), (A2 (r - S j) i)%nat, (C2 i j Hi Hj) by lia.
  f_equal. lia.
Qed.

Lemma rot90_3_3 {A} (m : Np.arr2 A) (r c : nat) :
  Props.rect r c m -> (0 < r)%nat -> (0 < c)%nat ->
  Np.rot90_01 3 (Np.rot90_01 3 m) = Np.rot90_01 2 m.
Proof.
  intros H Hr Hc. destruct (rot90_3_spec m r c H Hr) as [A1 A2].
  destruct (rot90_3_spec _ c r A1 Hc) as [B1 B2].
  destruct (rot90_2_spec m r c H) as [C1 C2].
  apply (rect_ext _ _ r c B1 C1). intros i j Hi Hj.
  rewrite (B2 i j Hi Hj), (A2 (c - S j) i)%nat, (C2 i j Hi Hj) by lia. reflexivity.
Qed.

(** The draws that succeed add up: the turn of 90 counts one quarter, the
    turn of 180 two and the turn of 270 three. *)
Lemma rotation_of_quarters {A} (d : CloudDataset.draws) (m : Np.arr2 A) (r c : nat) :
  Props.rect r c m -> (0 < r)%nat -> (0 < c)%nat ->
  Props.rotation_of d m
  = Np.rot90_01 (Z.b2z (CloudDataset.rot_90 d) + 2 * Z.b2z (CloudDataset.rot_180 d)
                 + 3 * Z.b2z (CloudDataset.rot_270 d)) m.
Proof.
  intros H Hr Hc. unfold Props.rotation_of.
  destruct d as [lr ud [|] [|] [|]]; simpl CloudDataset.rot_90;
    simpl CloudDataset.rot_180; simpl CloudDataset.rot_270; cbv [Z.b2z].
  - rewrite (rot90_2_1 m r c H Hr).
    rewrite (rot90_3_3 m r c H Hr Hc). reflexivity.
  - exact (rot90_2_1 m r c H Hr).
  - exact (rot90_3_1 m r c H Hr Hc).
  - reflexivity.
  - exact (rot90_3_2 m r c H Hr).
  - reflexivity.
  - reflexivity.
  - reflexivity.
Qed.

(** X22. Without the flips, the augmentation turns every channel of the
    image and the mask by the same number of quarter turns: one for the
    draw of 90 degrees, two for the draw of 180 and three for the draw of
    270, added up modulo four.  So the draws of 90 and 270 together give
    the sample back as it was, and all three together turn it by 180. *)
Theorem augment_rotations_add_up {A B} (d : CloudDataset.draws)
    (x : Np.arr3 A) (y : Np.arr2 B) (C H W : nat) :
  CloudDataset.flip_lr d = false -> CloudDataset.flip_ud d = false ->
  Props.rect3 C H W x -> Props.rect H W y -> (0 < H)%nat -> (0 < W)%nat ->
  let k := Z.b2z (CloudDataset.rot_90 d) + 2 * Z.b2z (CloudDataset.rot_180 d)
           + 3 * Z.b2z (CloudDataset.rot_270 d) in
  CloudDataset.augment_xy d x y = (Np.rot90_12 k x, Np.rot90_01 k y).
Proof.
  intros Hlr Hud [_ Hx] Hy HH HW k. subst k.
  rewrite (augment_rotations_aligned d x y Hlr Hud). f_equal.
  - unfold Np.rot90_12. apply map_ext_Forall.
    eapply Forall_impl; [exact Hx|]. intros m Hm.
    exact (rotation_of_quarters d m H W Hm HH HW).
  - exact (rotation_of_quarters d y H W Hy HH HW).
Qed.

End Rotations.

(** The draws of 90 and 270 degrees on a 2x3 tile and its mask. *)
Lemma augment_rotations_add_up_witness :
  let d := {| CloudDataset.flip_lr := false; CloudDataset.flip_ud := false;
              CloudDataset.rot_90 := true; CloudDataset.rot_180 := false;
              CloudDataset.rot_270 := true |} in
  CloudDataset.flip_lr d = false
  /\ CloudDataset.flip_ud d = false
  /\ Props.rect3 1 2 3 [[[1; 2; 3]; [4; 5; 6]]]
  /\ Props.rect 2 3 [[1; 2; 3]; [4; 5; 6]]
  /\ CloudDataset.augment_xy d [[[1; 2; 3]; [4; 5; 6]]] [[1; 2; 3]; [4; 5; 6]]
     = ([[[1; 2; 3]; [4; 5; 6]]], [[1; 2; 3]; [4; 5; 6]]).
Proof.
  intros d.
  assert (H1 : Props.rect3 1 2 3 [[[1; 2; 3]; [4; 5; 6]]]) by (repeat constructor).
  assert (H2 : Props.rect 2 3 [[1; 2; 3]; [4; 5; 6]]) by (repeat constructor).
  split; [reflexivity|]. split; [reflexivity|]. split; [exact H1|]. split; [exact H2|].
  exact (augment_rotations_add_up d [[[1; 2; 3]; [4; 5; 6]]] [[1; 2; 3]; [4; 5; 6]]
           1 2 3 eq_refl eq_refl H1 H2 ltac:(lia) ltac:(lia)).
Defined.

(** Two improving epochs and one that is not. *)
Lemma min_loss_is_running_minimum_witness :
  let means := [(Examples.fin 9, Examples.fin 5); (Examples.fin 8, Examples.fin 3);
                (Examples.fin 7, Examples.fin 4)] in
  Train.lt (Examples.fin 4)
    (Train.min_loss (Train.run_epochs Examples.cfg 0 means Train.initial)) = false.
Proof.
  intros means.
  apply (proj2 (min_loss_is_running_minimum Examples.cfg means 0 Train.initial)
           (Examples.fin 7) (Examples.fin 4)).
  do 2 apply list_elem_of_further. apply list_elem_of_here.
Defined.
